(** * DaCe Python frontend entry point (dace/frontend/python/parser.py)

    A shallow embedding of the parser module: descriptor resolution,
    type-annotation resolution, the [DaceProgram] object and the SDFG
    construction driver, together with the properties of the
    specification that concern them. *)

From stdpp Require Import gmap strings list fin_maps pretty.

Local Open Scope string_scope.
Local Open Scope list_scope.

(** ** Host values

    Python objects are observed by the module through a fixed set of
    tests and attribute reads.  An object is modelled by the answers it
    gives to them. *)

(** A Python or numpy type, by name. *)
Definition pytype : Type := string.

(** An instance of [dtypes.typeclass]: a wrapped element type. *)
Inductive typeclass : Type :=
  | Typeclass (wrapped : pytype).

(** One extent of a shape: a number or a symbol. *)
Inductive dim : Type :=
  | DimInt (n : Z)
  | DimSym (s : string).

(** Data descriptors, the instances of [data.Data]. *)
Inductive Data : Type :=
  | Array (dtype : typeclass) (shape : list dim)
  | Scalar (dtype : typeclass)
  | Stream (dtype : typeclass) (shape : list dim).

Definition Data_dtype (d : Data) : typeclass :=
  match d with
  | Array t _ => t
  | Scalar t => t
  | Stream t _ => t
  end.

Definition isinstance_Scalar (d : Data) : bool :=
  match d with
  | Scalar _ => true
  | _ => false
  end.

Record pyobj : Type := PyObj {
  (* type(obj) *)
  obj_type : pytype;
  (* isinstance(obj, data.Data): the descriptor that obj is *)
  obj_as_Data : option Data;
  (* obj.descriptor; None when the attribute lookup raises AttributeError *)
  obj_descriptor : option Data;
  (* isinstance(obj, numpy.ndarray): obj.dtype.type and obj.shape *)
  obj_as_ndarray : option (pytype * list Z);
  (* isinstance(obj, dtypes.typeclass) *)
  obj_as_typeclass : option typeclass;
  (* isinstance(obj, symbolic.symbol): obj.name *)
  obj_as_symbol : option string;
  (* obj.__name__ *)
  obj_name : string
}.

(** The functions of [dace.dtypes], [dace.symbolic] and [dace.config]
    that the module calls.  They live outside the module and are taken
    as given. *)
Record library : Type := Library {
  dtypes_typeclass : pytype -> typeclass;
  dtypes_isallowed : pyobj -> bool;
  dtypes_ismodule : pyobj -> bool;
  symbolic_issymbolic : pyobj -> bool;
  symbolic_symtype : pyobj -> typeclass;
  Config_get_bool : string -> string -> bool
}.

(** ** Exceptions and results *)

Inductive exn : Type :=
  | AttributeError (attr : string)
  | TypeError (msg : string)
  | SyntaxError (msg : string)
  | NameError (name : string)
  | KeyError
  | Raised (what : string).

Inductive result (A : Type) : Type :=
  | Ok (a : A)
  | Err (e : exn).
Arguments Ok {A} a.
Arguments Err {A} e.

Definition rbind {A B} (r : result A) (k : A -> result B) : result B :=
  match r with
  | Ok a => k a
  | Err e => Err e
  end.

(** [try: body except AttributeError: handler] *)
Definition try_except_AttributeError {A} (body handler : result A) : result A :=
  match body with
  | Err (AttributeError _) => handler
  | r => r
  end.

Definition getattr_descriptor (obj : pyobj) : result Data :=
  match obj_descriptor obj with
  | Some d => Ok d
  | None => Err (AttributeError "descriptor")
  end.

(** ** Dictionaries built by comprehension

    [{k: f(v) for k, v in items}]: the items are visited in order, a
    later binding of a key replaces an earlier one, and the first
    exception raised by [f] leaves the comprehension. *)
Fixpoint dict_comprehension {V W} (f : V -> result W) (items : list (string * V))
    (acc : gmap string W) : result (gmap string W) :=
  match items with
  | [] => Ok acc
  | (k, v) :: rest =>
      rbind (f v) (fun w => dict_comprehension f rest (<[k := w]> acc))
  end.

(** Python's [zip]: stops at the shorter sequence. *)
Fixpoint zip {A B} (xs : list A) (ys : list B) : list (A * B) :=
  match xs, ys with
  | x :: xs', y :: ys' => (x, y) :: zip xs' ys'
  | _, _ => []
  end.

(** A Python function object, as far as the module looks at it. *)
Record pyfunction : Type := PyFunction {
  fn_name : string;                               (* f.__name__ *)
  fn_annotations : option (gmap string pyobj);    (* f.__annotations__, if present *)
  fn_globals : gmap string pyobj;                 (* f.__globals__ *)
  fn_argspec_args : option (list string);         (* inspect.getfullargspec(f).args *)
  fn_source : string
}.

(** A [DaceProgram] object: the fields set by [__init__]. *)
Record DaceProgram : Type := MkDaceProgram {
  dp_f : pyfunction;                 (* self.f *)
  dp_args : list pyobj;              (* self.args *)
  dp_kwargs : gmap string pyobj;     (* self.kwargs *)
  dp_name : string;                  (* self._name *)
  dp_argnames : list string          (* self.argnames *)
}.

(** A value handed to the entry points: a [DaceProgram] or anything else. *)
Inductive hostvalue : Type :=
  | HProgram (p : DaceProgram)
  | HObject (o : pyobj).

(** ** Collaborators

    The AST parser, the dependency analysis, the SDFG class, memlet
    propagation, the file system and the Python compiler are outside
    the module.  The objects they own (parsed programs, primitives,
    SDFGs, states) are mutable and are referred to by identity; every
    call into a collaborator, and every read of an attribute of such an
    object, is a command answered from outside. *)

Abbreviation PDP := N (only parsing).
Abbreviation Primitive := N (only parsing).
Abbreviation SDFG := N (only parsing).
Abbreviation SDFGState := N (only parsing).

Inductive ext : Type :=
  | astparser_parse_dace_program (f : pyfunction) (argtypes : gmap string Data)
      (global_vars : gmap string pyobj) (modules : gmap string string)
  | PDP_name (pdp : PDP)
  | PDP_source (pdp : PDP)
  | PDP_children (pdp : PDP)
  | PDP_all_arrays (pdp : PDP)
  | PDP_argtypes (pdp : PDP)
  | SDFG_init (name : string)
  | SDFG_set_sourcecode (sdfg : SDFG) (code language : string)
  | depanalysis_inherit_dependencies (primitive : Primitive)
  | depanalysis_create_states_simple (pdp : PDP) (sdfg : SDFG)
  | SDFG_add_datadesc (sdfg : SDFG) (dataname : string) (datadesc : Data)
  | SDFG_reset_symbols (sdfg : SDFG)
  | SDFG_arrays_get (sdfg : SDFG) (name : string)
  | SDFG_add_symbol (sdfg : SDFG) (name : string) (dtype : typeclass)
      (override_dtype : bool)
  | SDFG_start_state (sdfg : SDFG)
  | SDFG_topological_sort (sdfg : SDFG) (start : SDFGState)
  | SDFGState_label (state : SDFGState)
  | SDFGState_set_label (state : SDFGState) (label : string)
  | depanalysis_build_dataflow_graph (sdfg : SDFG) (state : SDFGState)
      (primitives : list Primitive) (modules : gmap string string)
  | SDFG_fill_scope_connectors (sdfg : SDFG)
  | SDFG_propagate (sdfg : SDFG)
  | labeling_propagate_labels_sdfg (sdfg : SDFG)
  | SDFG_draw_to_file (sdfg : SDFG) (recursive : bool)
  | SDFG_apply_strict_transformations (sdfg : SDFG)
  | SDFG_validate (sdfg : SDFG)
  | open_read (filename : string)
  | compile_exec (s name : string).

(** What each command answers with. *)
Definition ret_type (c : ext) : Type :=
  match c with
  | astparser_parse_dace_program _ _ _ _ => PDP
  | PDP_name _ => string
  | PDP_source _ => string
  | PDP_children _ => list Primitive
  | PDP_all_arrays _ => list (string * Data)
  | PDP_argtypes _ => list (string * Data)
  | SDFG_init _ => SDFG
  | depanalysis_create_states_simple _ _ => gmap N (list Primitive)
  | SDFG_arrays_get _ _ => option Data
  | SDFG_start_state _ => SDFGState
  | SDFG_topological_sort _ _ => list SDFGState
  | SDFGState_label _ => option string
  | SDFG_propagate _ => bool
  | open_read _ => string
  | compile_exec _ _ => list (string * hostvalue)
  | _ => unit
  end.

(** ** Programs over the collaborators *)

Inductive prog (A : Type) : Type :=
  | Ret (a : A)
  | Raise (e : exn)
  | Call (c : ext) (k : ret_type c -> prog A).
Arguments Ret {A} a.
Arguments Raise {A} e.
Arguments Call {A} c k.

Fixpoint bind {A B} (m : prog A) (f : A -> prog B) : prog B :=
  match m with
  | Ret a => f a
  | Raise e => Raise e
  | Call c k => Call c (fun x => bind (k x) f)
  end.

Declare Scope prog_scope.
Delimit Scope prog_scope with prog.
Bind Scope prog_scope with prog.

Notation "x ← y ; z" := (bind y (fun x => z))
  (at level 20, y at level 100, z at level 200, only parsing) : prog_scope.
Notation "' x ← y ; z" := (bind y (fun x => z))
  (at level 20, x pattern, y at level 100, z at level 200, only parsing) : prog_scope.
Notation "x ;; z" := (bind x (fun _ => z))
  (at level 100, z at level 200, only parsing, right associativity) : prog_scope.

Local Open Scope prog_scope.

Definition call (c : ext) : prog (ret_type c) := Call c Ret.

Definition lift {A} (r : result A) : prog A :=
  match r with
  | Ok a => Ret a
  | Err e => Raise e
  end.

(** [for x in xs: body] *)
Fixpoint for_each {A} (xs : list A) (body : A -> prog unit) : prog unit :=
  match xs with
  | [] => Ret tt
  | x :: rest => bind (body x) (fun _ => for_each rest body)
  end.

(** [[f(x) for x in xs]] *)
Fixpoint list_comprehension {A B} (f : A -> prog B) (xs : list A) : prog (list B) :=
  match xs with
  | [] => Ret []
  | x :: rest =>
      bind (f x) (fun y => bind (list_comprehension f rest) (fun ys => Ret (y :: ys)))
  end.

Definition enumerate {A} (xs : list A) : list (nat * A) :=
  zip (seq 0 (length xs)) xs.

(** [d[k] = g(v)] for an item [(k, v)]. *)
Definition put {V W} (g : V -> W) (m : gmap string W) (kv : string * V)
    : gmap string W :=
  <[kv.1 := g kv.2]> m.

(** [{k: v for (k, v) in items}] without a failing part. *)
Definition dict_of_items {V} (items : list (string * V)) : gmap string V :=
  foldl (put id) ∅ items.

(** *** Running a program

    A handler answers each command in a world [W], with a value or an
    exception.  [run] also returns the commands issued, in order. *)

Definition handler (W : Type) : Type :=
  forall c : ext, W -> result (ret_type c) * W.

Fixpoint run {W A} (h : handler W) (p : prog A) (w : W)
    : result A * W * list ext :=
  match p with
  | Ret a => (Ok a, w, [])
  | Raise e => (Err e, w, [])
  | Call c k =>
      match h c w with
      | (Ok x, w') =>
          let '(r, w'', l) := run h (k x) w' in (r, w'', c :: l)
      | (Err e, w') => (Err e, w', [c])
      end
  end.

Section Parser.

Context (L : library).

(** ** [_create_datadescriptor] *)

Definition _create_datadescriptor (obj : pyobj) : result Data :=
  match obj_as_Data obj with
  | Some d => Ok d
  | None =>
      try_except_AttributeError (getattr_descriptor obj)
        (match obj_as_ndarray obj with
         | Some (ty, shape) =>
             Ok (Array (dtypes_typeclass L ty) (DimInt <$> shape))
         | None =>
             if symbolic_issymbolic L obj then
               Ok (Scalar (symbolic_symtype L obj))
             else
               match obj_as_typeclass obj with
               | Some t => Ok (Scalar t)
               | None => Ok (Scalar (dtypes_typeclass L (obj_type obj)))
               end
         end)
  end.

(** ** [_get_type_annotations] *)

Definition msg_return_type : string :=
  "DaCe programs do not have a return type".

Definition msg_both : string :=
  "DaCe programs can only have decorator arguments " +:+
  "('@dace.program(...)') or type annotations " +:+
  "('def program(arr: type, ...)'), but not both".

Definition msg_decorator_count (n : nat) : string :=
  "Decorator arguments must match number of DaCe " +:+
  "program parameters (expecting " +:+ pretty n +:+ ")".

Definition msg_partial : string :=
  "Either none or all DaCe program parameters must " +:+
  "have type annotations".

(** [type_annotations = {}; type_annotations.update(f.__annotations__)] *)
Definition type_annotations_of (f : pyfunction) : gmap string pyobj :=
  match fn_annotations f with
  | Some ann => ann ∪ ∅
  | None => ∅
  end.

Definition _get_type_annotations (f : pyfunction) (f_argnames : list string)
    (decorator_args : list pyobj) : result (gmap string Data) :=
  let type_annotations := type_annotations_of f in
  let has_args := bool_decide (0 < length decorator_args) in
  let has_annotations := bool_decide (0 < size type_annotations) in
  if bool_decide (is_Some (type_annotations !! "return")) then
    Err (TypeError msg_return_type)
  else if has_args && has_annotations then
    Err (SyntaxError msg_both)
  else if has_args then
    if bool_decide (length decorator_args ≠ length f_argnames) then
      Err (SyntaxError (msg_decorator_count (length f_argnames)))
    else
      dict_comprehension _create_datadescriptor (zip f_argnames decorator_args) ∅
  else
    let annotated :=
      dict_comprehension _create_datadescriptor (map_to_list type_annotations) ∅ in
    if has_annotations then
      if bool_decide (size type_annotations ≠ length f_argnames) then
        Err (SyntaxError msg_partial)
      else annotated
    else annotated.

(** ** [_get_argnames] and [DaceProgram.__init__]

    [inspect.getfullargspec] and its fallback [inspect.getargspec] read
    the same list of positional parameter names. *)

Definition _get_argnames (f : pyfunction) : option (list string) :=
  fn_argspec_args f.

Definition DaceProgram_init (f : pyfunction) (args : list pyobj)
    (kwargs : gmap string pyobj) : DaceProgram :=
  {| dp_f := f;
     dp_args := args;
     dp_kwargs := kwargs;
     dp_name := fn_name f;
     dp_argnames := match _get_argnames f with
                    | Some names => names
                    | None => []
                    end |}.

(** ** [DaceProgram.generate_pdp] *)

Definition msg_requires_types : string :=
  "DaCe program compilation requires either type annotations " +:+
  "or arrays".

Definition msg_arguments_count (n : nat) : string :=
  "Arguments must match DaCe program parameters (expecting " +:+
  pretty n +:+ ")".

(** [{k: v for k, v in d.items() if dtypes.isallowed(v)}] *)
Definition allowed_items (d : gmap string pyobj) : gmap string pyobj :=
  filter (fun kv => Is_true (dtypes_isallowed L kv.2)) d.

(** [{k: v.__name__ for k, v in d.items() if dtypes.ismodule(v)}] *)
Definition module_items (d : gmap string pyobj) : gmap string string :=
  obj_name <$> filter (fun kv => Is_true (dtypes_ismodule L kv.2)) d.

(** [{v.name: v for k, v in d.items() if isinstance(v, symbolic.symbol)}];
    the items are visited in the order of [map_to_list]. *)
Definition symbol_items (d : gmap string pyobj) : gmap string pyobj :=
  dict_of_items
    (omap (fun kv => (fun name => (name, kv.2)) <$> obj_as_symbol kv.2)
          (map_to_list d)).

Definition generate_pdp (self : DaceProgram) (compilation_args : list pyobj)
    : prog (PDP * gmap string string) :=
  let dace_func := dp_f self in
  let args := dp_args self in
  argtypes ← lift (_get_type_annotations dace_func (dp_argnames self) args);
  argtypes ←
    (if bool_decide (argtypes = ∅) then
       if bool_decide (length compilation_args = 0) then
         Raise (SyntaxError msg_requires_types)
       else if bool_decide (length compilation_args ≠ length (dp_argnames self)) then
         Raise (SyntaxError (msg_arguments_count (length (dp_argnames self))))
       else
         lift (dict_comprehension _create_datadescriptor
                 (zip (dp_argnames self) compilation_args) ∅)
     else Ret argtypes);
  let global_vars := allowed_items (fn_globals dace_func) in
  let modules := module_items (fn_globals dace_func) in
  let modules := <["builtins" := ""]> modules in
  let global_vars := symbol_items global_vars ∪ global_vars in
  let global_vars := allowed_items (dp_kwargs self) ∪ global_vars in
  pdp ← call (astparser_parse_dace_program dace_func argtypes global_vars modules);
  Ret (pdp : N, modules).

(** ** [parse_from_function] *)

Definition msg_not_a_program : string :=
  "Function must be of type dace.frontend.python.DaceProgram".

(** Steps 1 to 6, scope connectors and memlet propagation. *)
Definition populate (pdp : PDP) (modules : gmap string string) (sdfg : SDFG)
    : prog unit :=
  (* Step 1 *)
  children ← call (PDP_children pdp);
  for_each children (fun primitive =>
    call (depanalysis_inherit_dependencies primitive));;
  (* Step 2 *)
  state_primitives ← call (depanalysis_create_states_simple pdp sdfg);
  (* Step 3 *)
  arrays ← call (PDP_all_arrays pdp);
  for_each arrays (fun '(dataname, datadesc) =>
    call (SDFG_add_datadesc sdfg dataname datadesc));;
  call (SDFG_reset_symbols sdfg);;
  argtypes ← call (PDP_argtypes pdp);
  for_each argtypes (fun '(symname, symtype) =>
    arr ← call (SDFG_arrays_get sdfg symname);
    match arr with
    | Some d =>
        if isinstance_Scalar d then
          call (SDFG_add_symbol sdfg symname (Data_dtype symtype) true)
        else Ret tt
    | None => call (SDFG_add_symbol sdfg symname (Data_dtype symtype) true)
    end);;
  (* Step 5 *)
  start ← call (SDFG_start_state sdfg);
  stateList ← call (SDFG_topological_sort sdfg start);
  for_each (enumerate stateList) (fun '(i, state) =>
    label ← call (SDFGState_label state);
    match label with
    | Some (String _ _) => Ret tt
    | _ => call (SDFGState_set_label state ("s" +:+ pretty i))
    end);;
  (* Step 6 *)
  for_each (enumerate stateList) (fun '(i, state) =>
    match state_primitives !! state with
    | Some primitives =>
        call (depanalysis_build_dataflow_graph sdfg state primitives modules)
    | None => Raise KeyError
    end);;
  call (SDFG_fill_scope_connectors sdfg);;
  propagate ← call (SDFG_propagate sdfg);
  (if propagate then call (labeling_propagate_labels_sdfg sdfg) else Ret tt).

(** Whether the strict transformations are requested. *)
Definition strict_enabled (strict : option bool) : bool :=
  match strict with
  | Some b => b
  | None => Config_get_bool L "optimizer" "automatic_state_fusion"
  end.

(** Drawing, strict transformations, drawing again, validation. *)
Definition finish (sdfg : SDFG) (strict : option bool) : prog SDFG :=
  call (SDFG_draw_to_file sdfg true);;
  (if strict_enabled strict
   then call (SDFG_apply_strict_transformations sdfg)
   else Ret tt);;
  call (SDFG_draw_to_file sdfg true);;
  call (SDFG_validate sdfg);;
  Ret sdfg.

Definition parse_from_function (function : hostvalue)
    (compilation_args : list pyobj) (strict : option bool) : prog SDFG :=
  match function with
  | HObject _ => Raise (TypeError msg_not_a_program)
  | HProgram function =>
      '(pdp, modules) ← generate_pdp function compilation_args;
      name ← call (PDP_name pdp);
      sdfg ← call (SDFG_init name);
      source ← call (PDP_source pdp);
      call (SDFG_set_sourcecode sdfg source "python");;
      populate pdp modules sdfg;;
      finish sdfg strict
  end.

(** ** [_compile_module] and [parse_from_file] *)

Definition _compile_module (s name : string) : prog (list (string * hostvalue)) :=
  call (compile_exec s name).

(** What a name of the module's global namespace is bound to, seen from
    a call site of the form [name(program, *compilation_args)]. *)
Inductive binding : Type :=
  | BoundEntry (entry : hostvalue -> list pyobj -> prog SDFG)
  | BoundOther.

(** The names bound at the top level of the module: its imports, its
    functions and its class. *)
Definition module_globals (name : string) : option binding :=
  if bool_decide (name = "parse_from_function") then
    Some (BoundEntry (fun function args => parse_from_function function args None))
  else if bool_decide (name ∈
      ["print_function"; "OrderedDict"; "wraps"; "inspect"; "ast"; "copy";
       "sys"; "numpy"; "data"; "symbolic"; "dtypes"; "Config"; "astparser";
       "astutils"; "depanalysis"; "SDFG"; "labeling";
       "_create_datadescriptor"; "_get_type_annotations"; "_get_argnames";
       "_compile_module"; "parse_from_file"; "DaceProgram"]) then
    Some BoundOther
  else None.

(** [name(program, *compilation_args)] evaluated in the module. *)
Definition call_global (name : string) (program : DaceProgram)
    (compilation_args : list pyobj) : prog SDFG :=
  match module_globals name with
  | Some (BoundEntry entry) => entry (HProgram program) compilation_args
  | Some BoundOther => Raise (TypeError ("'" +:+ name +:+ "' is not an entry point"))
  | None => Raise (NameError name)
  end.

Definition parse_from_file (filename : string) (compilation_args : list pyobj)
    : prog (list SDFG) :=
  code ← call (open_read filename);
  mod_ ← _compile_module code filename;
  let programs :=
    omap (fun kv => match kv.2 with
                    | HProgram p => Some p
                    | HObject _ => None
                    end) mod_ in
  list_comprehension (fun p => call_global "parse_function" p compilation_args)
                     programs.

End Parser.

Arguments _create_datadescriptor L obj : simpl never.

(** ** The dispatch of the specification

    Section 9 of the specification describes descriptor resolution as a
    dispatch over the closed variant set AlreadyDescribed, NumericArray,
    SymbolicExpr, TypeTag, Fallback, tried in this order.  The two
    definitions below follow that description; they are compared with
    [_create_datadescriptor] further down. *)

Inductive variant : Type :=
  | AlreadyDescribed (d : Data)
  | NumericArray (ty : pytype) (shape : list Z)
  | SymbolicExpr
  | TypeTag (t : typeclass)
  | Fallback.

(** The descriptor a value carries: the value itself when it is a
    descriptor, else its [descriptor] attribute. *)
Definition spec_carried (obj : pyobj) : option Data :=
  match obj_as_Data obj with
  | Some d => Some d
  | None => obj_descriptor obj
  end.

Definition spec_classify (L : library) (obj : pyobj) : variant :=
  match spec_carried obj with
  | Some d => AlreadyDescribed d
  | None =>
      match obj_as_ndarray obj with
      | Some (ty, shape) => NumericArray ty shape
      | None =>
          if symbolic_issymbolic L obj then SymbolicExpr
          else match obj_as_typeclass obj with
               | Some t => TypeTag t
               | None => Fallback
               end
      end
  end.

Definition spec_resolve (L : library) (obj : pyobj) (v : variant) : Data :=
  match v with
  | AlreadyDescribed d => d
  | NumericArray ty shape => Array (dtypes_typeclass L ty) (DimInt <$> shape)
  | SymbolicExpr => Scalar (symbolic_symtype L obj)
  | TypeTag t => Scalar t
  | Fallback => Scalar (dtypes_typeclass L (obj_type obj))
  end.

(** The descriptor the specification assigns to a value. *)
Definition spec_descriptor (L : library) (obj : pyobj) : Data :=
  spec_resolve L obj (spec_classify L obj).

(** ** The error conditions of annotation resolution

    [error_condition] is what the guards of [_get_type_annotations]
    test. *)

Definition annotates_return (f : pyfunction) : Prop :=
  is_Some (type_annotations_of f !! "return").

Definition has_decorator_args (decorator_args : list pyobj) : Prop :=
  0 < length decorator_args.

Definition has_inline_annotations (f : pyfunction) : Prop :=
  0 < size (type_annotations_of f).

(** Some but not all parameters carry an inline annotation. *)
Definition spec_partially_annotated (f : pyfunction) (f_argnames : list string)
    : Prop :=
  (exists p, p ∈ f_argnames /\ is_Some (type_annotations_of f !! p)) /\
  (exists p, p ∈ f_argnames /\ type_annotations_of f !! p = None).

Definition error_condition (f : pyfunction) (f_argnames : list string)
    (decorator_args : list pyobj) : Prop :=
  annotates_return f \/
  (has_decorator_args decorator_args /\ has_inline_annotations f) \/
  (has_decorator_args decorator_args /\
   length decorator_args ≠ length f_argnames) \/
  (~ has_decorator_args decorator_args /\ has_inline_annotations f /\
   size (type_annotations_of f) ≠ length f_argnames).

(** ** Properties of command sequences *)

(** No command of the program satisfies [P], whatever the answers. *)
Fixpoint avoids {A} (P : ext -> bool) (p : prog A) : Prop :=
  match p with
  | Ret _ => True
  | Raise _ => True
  | Call c k => P c = false /\ forall x, avoids P (k x)
  end.

(** The strict transformations and validation. *)
Definition finishing (c : ext) : bool :=
  match c with
  | SDFG_apply_strict_transformations _ => true
  | SDFG_validate _ => true
  | _ => false
  end.

(** The toggle of the specification: [strict] is True, or it is None
    and the configured flag is set. *)
Definition spec_strict_requested (L : library) (strict : option bool) : Prop :=
  strict = Some true \/
  (strict = None /\ Config_get_bool L "optimizer" "automatic_state_fusion" = true).

(** Every application of the strict transformations in a run comes
    after a validation. *)
Definition spec_validated_before_optimized (l : list ext) : Prop :=
  forall l1 g l2,
    l = l1 ++ SDFG_apply_strict_transformations g :: l2 ->
    exists g', SDFG_validate g' ∈ l1.

(** The alias mapping holds an empty alias for [builtins] and, for
    every module bound in the globals, the binding name mapped to the
    module's name. *)
Definition spec_module_aliases (L : library) (f : pyfunction)
    (modules : gmap string string) : Prop :=
  modules !! "builtins" = Some "" /\
  forall k v, fn_globals f !! k = Some v -> dtypes_ismodule L v = true ->
    modules !! k = Some (obj_name v).

(** ** Concrete values used in the examples *)

Module Demo.

(** [dace.float64] *)
Definition float64 : pyobj :=
  {| obj_type := "typeclass"; obj_as_Data := None; obj_descriptor := None;
     obj_as_ndarray := None; obj_as_typeclass := Some (Typeclass "float64");
     obj_as_symbol := None; obj_name := "" |}.

(** A numpy array of shape (4, 3). *)
Definition array43 : pyobj :=
  {| obj_type := "ndarray"; obj_as_Data := None; obj_descriptor := None;
     obj_as_ndarray := Some ("float32", [4%Z; 3%Z]); obj_as_typeclass := None;
     obj_as_symbol := None; obj_name := "" |}.

(** A module object, [import builtins]. *)
Definition builtins_module : pyobj :=
  {| obj_type := "module"; obj_as_Data := None; obj_descriptor := None;
     obj_as_ndarray := None; obj_as_typeclass := None;
     obj_as_symbol := None; obj_name := "builtins" |}.

(** [import numpy as np] *)
Definition numpy_module : pyobj :=
  {| obj_type := "module"; obj_as_Data := None; obj_descriptor := None;
     obj_as_ndarray := None; obj_as_typeclass := None;
     obj_as_symbol := None; obj_name := "numpy" |}.

Definition lib (automatic_state_fusion : bool) : library :=
  {| dtypes_typeclass := Typeclass;
     dtypes_isallowed := fun o =>
       match obj_as_typeclass o, obj_as_symbol o with
       | None, None => false
       | _, _ => true
       end;
     dtypes_ismodule := fun o => String.eqb (obj_type o) "module";
     symbolic_issymbolic := fun o =>
       match obj_as_symbol o with Some _ => true | None => false end;
     symbolic_symtype := fun _ => Typeclass "int32";
     Config_get_bool := fun _ _ => automatic_state_fusion |}.

(** [def f(a, b): ...] with the given annotations and globals. *)
Definition func (annotations : option (gmap string pyobj))
    (globals : gmap string pyobj) : pyfunction :=
  {| fn_name := "f"; fn_annotations := annotations; fn_globals := globals;
     fn_argspec_args := Some ["a"; "b"]; fn_source := "def f(a, b): ..." |}.

(** [@dace.program def f(a, b)], no annotations of either kind. *)
Definition bare : DaceProgram :=
  DaceProgram_init (func None {["np" := numpy_module]}) [] ∅.

(** [@dace.program(dace.float64, dace.float64) def f(a: dace.float64, b)] *)
Definition both : DaceProgram :=
  DaceProgram_init (func (Some {["a" := float64]}) ∅) [float64; float64] ∅.

(** [import builtins] in the globals of the decorated function. *)
Definition with_builtins : DaceProgram :=
  DaceProgram_init (func None {["builtins" := builtins_module]}) [] ∅.

(** Collaborators that always succeed: the parsed program has two
    primitives, one array [A] and one symbol [N]; the SDFG has the
    single state 20.  [module] is what compiling a file yields. *)
Definition collaborators (module : list (string * hostvalue)) : handler unit :=
  fun c w =>
    (match c return result (ret_type c) with
     | astparser_parse_dace_program _ _ _ _ => Ok 1%N
     | PDP_name _ => Ok "f"
     | PDP_source _ => Ok "def f(a, b): ..."
     | PDP_children _ => Ok [10%N; 11%N]
     | PDP_all_arrays _ => Ok [("A", Array (Typeclass "float64") [DimSym "N"])]
     | PDP_argtypes _ =>
         Ok [("A", Array (Typeclass "float64") [DimSym "N"]);
             ("N", Scalar (Typeclass "int32"))]
     | SDFG_init _ => Ok 2%N
     | depanalysis_create_states_simple _ _ => Ok {[20%N := [10%N; 11%N]]}
     | SDFG_arrays_get _ name =>
         Ok (if String.eqb name "A"
             then Some (Array (Typeclass "float64") [DimSym "N"])
             else None)
     | SDFG_start_state _ => Ok 20%N
     | SDFG_topological_sort _ _ => Ok [20%N]
     | SDFGState_label _ => Ok None
     | SDFG_propagate _ => Ok true
     | open_read _ => Ok "import dace"
     | compile_exec _ _ => Ok module
     | SDFG_set_sourcecode _ _ _ => Ok tt
     | depanalysis_inherit_dependencies _ => Ok tt
     | SDFG_add_datadesc _ _ _ => Ok tt
     | SDFG_reset_symbols _ => Ok tt
     | SDFG_add_symbol _ _ _ _ => Ok tt
     | SDFGState_set_label _ _ => Ok tt
     | depanalysis_build_dataflow_graph _ _ _ _ => Ok tt
     | SDFG_fill_scope_connectors _ => Ok tt
     | labeling_propagate_labels_sdfg _ => Ok tt
     | SDFG_draw_to_file _ _ => Ok tt
     | SDFG_apply_strict_transformations _ => Ok tt
     | SDFG_validate _ => Ok tt
     end, w).

(** Two compilation arguments for [f(a, b)]. *)
Definition args2 : list pyobj := [array43; float64].

(** A module that defines one DaCe program. *)
Definition one_program_module : list (string * hostvalue) :=
  [("__builtins__", HObject builtins_module); ("f", HProgram bare)].

End Demo.

(** ** Invariants of command sequences under given collaborators *)

(** [x] is an answer the collaborators can give to [c]. *)
Definition answers {W} (h : handler W) (c : ext) (x : ret_type c) : Prop :=
  exists w w', h c w = (Ok x, w').

(** Every command the program can issue satisfies [Q], when the
    commands are answered by [h]. *)
Fixpoint commands_obey {W A} (h : handler W) (Q : ext -> Prop) (p : prog A)
    : Prop :=
  match p with
  | Ret _ => True
  | Raise _ => True
  | Call c k => Q c /\ forall x, answers h c x -> commands_obey h Q (k x)
  end.

(** Every value the program can return satisfies [Q]. *)
Fixpoint returns_only {A} (Q : A -> Prop) (p : prog A) : Prop :=
  match p with
  | Ret a => Q a
  | Raise _ => True
  | Call c k => forall x, returns_only Q (k x)
  end.

(** The SDFG a command acts on, for the commands that act on one. *)
Definition sdfg_of (c : ext) : option N :=
  match c with
  | SDFG_set_sourcecode sdfg _ _ => Some sdfg
  | depanalysis_create_states_simple _ sdfg => Some sdfg
  | SDFG_add_datadesc sdfg _ _ => Some sdfg
  | SDFG_reset_symbols sdfg => Some sdfg
  | SDFG_arrays_get sdfg _ => Some sdfg
  | SDFG_add_symbol sdfg _ _ _ => Some sdfg
  | SDFG_start_state sdfg => Some sdfg
  | SDFG_topological_sort sdfg _ => Some sdfg
  | depanalysis_build_dataflow_graph sdfg _ _ _ => Some sdfg
  | SDFG_fill_scope_connectors sdfg => Some sdfg
  | SDFG_propagate sdfg => Some sdfg
  | labeling_propagate_labels_sdfg sdfg => Some sdfg
  | SDFG_draw_to_file sdfg _ => Some sdfg
  | SDFG_apply_strict_transformations sdfg => Some sdfg
  | SDFG_validate sdfg => Some sdfg
  | _ => None
  end.

(** The command neither creates an SDFG nor acts on one. *)
Definition before_sdfg (c : ext) : Prop :=
  sdfg_of c = None /\ forall name, c ≠ SDFG_init name.

(** The command creates no SDFG and acts on no SDFG other than [sdfg]. *)
Definition within_sdfg (sdfg : N) (c : ext) : Prop :=
  (forall g, sdfg_of c = Some g -> g = sdfg) /\ forall name, c ≠ SDFG_init name.

(** The constants handed to the AST parser by [generate_pdp]:
    keyword arguments over symbols under their own names over the
    allowed globals. *)
Definition generated_global_vars (L : library) (self : DaceProgram)
    : gmap string pyobj :=
  allowed_items L (dp_kwargs self) ∪
  (symbol_items (allowed_items L (fn_globals (dp_f self))) ∪
   allowed_items L (fn_globals (dp_f self))).

(** ** [DaceProgram.to_sdfg] *)

Definition to_sdfg (L : library) (self : DaceProgram) (args : list pyobj)
    (strict : option bool) : prog N :=
  parse_from_function L (HProgram self) args strict.

(** ** The keyword arguments of [DaceProgram.__call__]

    [__call__] compiles the program and calls the binary with a
    dictionary built from the positional arguments and from the symbols
    in the shapes of the arguments that carry a descriptor.  The
    dictionary is modelled here; [symbolic.symlist] on a shape and
    [symbolic.symbol(sym).get()] are functions of [dace.symbolic] and
    are taken as given, the second one may raise. *)

(** A value of the dictionary: an argument or the value of a symbol. *)
Inductive callarg : Type :=
  | ArgObject (o : pyobj)
  | ArgSymbol (value : Z).

Section Call.

Context (symlist_shape : Data -> list string).
Context (symbol_get : string -> result Z).

(** [symbolic.symlist(arg.descriptor.shape) if hasattr(arg, 'descriptor')
    else []] *)
Definition shape_symbols (arg : pyobj) : list string :=
  match obj_descriptor arg with
  | Some d => symlist_shape d
  | None => []
  end.

Definition call_kwargs (self : DaceProgram) (args : list pyobj)
    : result (gmap string callarg) :=
  let kwargs := dict_of_items (zip (dp_argnames self) (ArgObject <$> args)) in
  rbind (dict_comprehension (fun sym => rbind (symbol_get sym)
                                          (fun v => Ok (ArgSymbol v)))
           ((fun sym => (sym, sym)) <$> (args ≫= shape_symbols)) ∅)
        (fun symbols => Ok (symbols ∪ kwargs)).

End Call.

(** ** More concrete values *)

Module Cases.

Import Demo.


(** A symbol [N] of the globals, bound there under the name [n]. *)
Definition symbol_N : pyobj :=
  {| obj_type := "symbol"; obj_as_Data := None; obj_descriptor := None;
     obj_as_ndarray := None; obj_as_typeclass := None;
     obj_as_symbol := Some "N"; obj_name := "N" |}.

(** A dace array of shape [N]: it carries its descriptor. *)
Definition dace_array_N : pyobj :=
  {| obj_type := "ndarray"; obj_as_Data := None;
     obj_descriptor := Some (Array (Typeclass "float64") [DimSym "N"]);
     obj_as_ndarray := Some ("float64", [8%Z]); obj_as_typeclass := None;
     obj_as_symbol := None; obj_name := "" |}.

(** [@dace.program(dace.float64, dace.float64, T=dace.float64)] on
    [def f(a, b)], with [n = dace.symbol('N')], [import numpy as np]
    and a string [version] among the globals. *)
Definition decorated : DaceProgram :=
  DaceProgram_init
    (func None {["n" := symbol_N; "np" := numpy_module;
                 "version" := PyObj "str" None None None None None ""]})
    [float64; array43] {["T" := float64; "np" := numpy_module]}.

(** [def f(a: dace.float64, b: dace.float64)] *)
Definition annotated : DaceProgram :=
  DaceProgram_init (func (Some {["a" := float64; "b" := float64]}) ∅) [] ∅.

(** The symbols of a shape, and their values: [N] is 8. *)
Definition symlist_shape (d : Data) : list string :=
  match d with
  | Array _ shape | Stream _ shape =>
      omap (fun x => match x with DimSym s => Some s | DimInt _ => None end) shape
  | Scalar _ => []
  end.

Definition symbol_get (sym : string) : result Z :=
  if String.eqb sym "N" then Ok 8%Z else Err (Raised "UndefinedSymbol").

(** What the AST parser is called with for [decorated]. *)
Definition decorated_argtypes : gmap string Data :=
  {["a" := Scalar (Typeclass "float64");
    "b" := Array (Typeclass "float32") [DimInt 4; DimInt 3]]}.

Definition decorated_modules : gmap string string :=
  {["builtins" := ""; "np" := "numpy"]}.

Definition decorated_call : ext :=
  astparser_parse_dace_program (dp_f decorated) decorated_argtypes
    (generated_global_vars (lib true) decorated) decorated_modules.

(** The run of [generate_pdp] on [decorated]. *)
Definition decorated_run : result (N * gmap string string) * unit * list ext :=
  run (collaborators []) (generate_pdp (lib true) decorated []) tt.

(** The run of the driver on [bare] with two compilation arguments. *)
Definition driver_run : result N * unit * list ext :=
  run (collaborators [])
      (parse_from_function (lib true) (HProgram bare) args2 None) tt.

(** Collaborators whose states all carry the label [entry]. *)
Definition labelled : handler unit :=
  fun c w =>
    match c as c0 return result (ret_type c0) * unit with
    | SDFGState_label _ => (Ok (Some "entry"), w)
    | c0 => collaborators [] c0 w
    end.

Definition labelled_run : result N * unit * list ext :=
  run labelled (parse_from_function (lib true) (HProgram bare) args2 None) tt.

(** [def f(a: dace.float64, b)]: one of two parameters annotated. *)
Definition half_annotated : pyfunction :=
  func (Some {["a" := float64]}) ∅.

(** [@dace.program def f(): ...], a program without parameters. *)
Definition nullary : DaceProgram :=
  DaceProgram_init
    {| fn_name := "f"; fn_annotations := None; fn_globals := ∅;
       fn_argspec_args := None; fn_source := "def f(): ..." |} [] ∅.

(** A module without programs. *)
Definition empty_module : list (string * hostvalue) :=
  [("__builtins__", HObject builtins_module)].

(** The dictionary of the call [f(A, dace.float64)] with [A] of shape [N]. *)
Definition call_dictionary : gmap string callarg :=
  {["a" := ArgObject dace_array_N; "b" := ArgObject float64;
    "N" := ArgSymbol 8]}.

End Cases.

(** ** Attribute reads that raise

    What [obj.descriptor] evaluates to is whatever the attribute holds,
    a descriptor or not, and the evaluation may raise any exception,
    not only AttributeError (a property that fails).  The module
    [Reads] embeds [_create_datadescriptor] and [_get_type_annotations]
    over an arbitrary outcome [read] of that evaluation; the embedding
    further up is the case of [plain_read], an attribute that is
    missing or holds a descriptor. *)

(** What [_create_datadescriptor] hands back. *)
Inductive returned : Type :=
  | Descriptor (d : Data)
  | Whatever (o : pyobj).

Definition is_AttributeError (e : exn) : bool :=
  match e with
  | AttributeError _ => true
  | _ => false
  end.

Definition plain_read (obj : pyobj) : result returned :=
  match obj_descriptor obj with
  | Some d => Ok (Descriptor d)
  | None => Err (AttributeError "descriptor")
  end.

Definition rmap {A B} (g : A -> B) (r : result A) : result B :=
  match r with
  | Ok a => Ok (g a)
  | Err e => Err e
  end.

Module Reads.

Section Reads.

Context (L : library).
Context (read : pyobj -> result returned).

Definition _create_datadescriptor (obj : pyobj) : result returned :=
  match obj_as_Data obj with
  | Some d => Ok (Descriptor d)
  | None =>
      try_except_AttributeError (read obj)
        (match obj_as_ndarray obj with
         | Some (ty, shape) =>
             Ok (Descriptor (Array (dtypes_typeclass L ty) (DimInt <$> shape)))
         | None =>
             if symbolic_issymbolic L obj then
               Ok (Descriptor (Scalar (symbolic_symtype L obj)))
             else
               match obj_as_typeclass obj with
               | Some t => Ok (Descriptor (Scalar t))
               | None =>
                   Ok (Descriptor (Scalar (dtypes_typeclass L (obj_type obj))))
               end
         end)
  end.

Definition _get_type_annotations (f : pyfunction) (f_argnames : list string)
    (decorator_args : list pyobj) : result (gmap string returned) :=
  let type_annotations := type_annotations_of f in
  let has_args := bool_decide (0 < length decorator_args) in
  let has_annotations := bool_decide (0 < size type_annotations) in
  if bool_decide (is_Some (type_annotations !! "return")) then
    Err (TypeError msg_return_type)
  else if has_args && has_annotations then
    Err (SyntaxError msg_both)
  else if has_args then
    if bool_decide (length decorator_args ≠ length f_argnames) then
      Err (SyntaxError (msg_decorator_count (length f_argnames)))
    else
      dict_comprehension _create_datadescriptor (zip f_argnames decorator_args) ∅
  else
    let annotated :=
      dict_comprehension _create_datadescriptor (map_to_list type_annotations) ∅ in
    if has_annotations then
      if bool_decide (size type_annotations ≠ length f_argnames) then
        Err (SyntaxError msg_partial)
      else annotated
    else annotated.

End Reads.

End Reads.

(** The descriptor inferred from a value that carries none: the arms
    NumericArray, SymbolicExpr, TypeTag and Fallback of the
    specification, in this order. *)
Definition spec_inferred (L : library) (obj : pyobj) : Data :=
  match obj_as_ndarray obj with
  | Some (ty, shape) => Array (dtypes_typeclass L ty) (DimInt <$> shape)
  | None =>
      if symbolic_issymbolic L obj then Scalar (symbolic_symtype L obj)
      else match obj_as_typeclass obj with
           | Some t => Scalar t
           | None => Scalar (dtypes_typeclass L (obj_type obj))
           end
  end.

(** The four error conditions as the specification has them: (1) a
    return type is annotated; (2) decorator arguments and inline
    annotations are both present; (3) the number of decorator arguments
    given does not match the number of parameters; (4) some but not all
    parameters carry an inline annotation. *)
Definition claimed_error_condition (f : pyfunction) (f_argnames : list string)
    (decorator_args : list pyobj) : Prop :=
  annotates_return f \/
  (has_decorator_args decorator_args /\ has_inline_annotations f) \/
  (has_decorator_args decorator_args /\
   length decorator_args ≠ length f_argnames) \/
  spec_partially_annotated f f_argnames.

(** Resolving the descriptor of a decorator argument or of an
    annotation raises [e]. *)
Definition resolution_raises (L : library) (read : pyobj -> result returned)
    (f : pyfunction) (decorator_args : list pyobj) (e : exn) : Prop :=
  exists v,
    (v ∈ decorator_args \/ exists k, type_annotations_of f !! k = Some v) /\
    Reads._create_datadescriptor L read v = Err e.

(** ** [DaceProgram.compile] and [DaceProgram.__call__]

    [sdfg.compile] and the call of the compiled binary are outside the
    module; they are taken as given programs over the collaborators. *)

Section Calling.

Context (L : library).
Context (symlist_shape : Data -> list string).
Context (symbol_get : string -> result Z).
Context {B R : Type}.
Context (sdfg_compile : N -> option bool -> prog B).
Context (binary_call : B -> gmap string callarg -> prog R).



End Calling.

(** ** Values whose descriptor cannot be read *)

Module Lazy.

Import Demo.

(** An object whose [descriptor] property raises ValueError. *)
Definition lazy_obj : pyobj :=
  {| obj_type := "Lazy"; obj_as_Data := None; obj_descriptor := None;
     obj_as_ndarray := None; obj_as_typeclass := None;
     obj_as_symbol := None; obj_name := "" |}.

Definition lazy_read (obj : pyobj) : result returned :=
  if String.eqb (obj_type obj) "Lazy" then Err (Raised "ValueError")
  else plain_read obj.

(** [def f(a: lazy)] *)
Definition lazy_annotated : pyfunction :=
  {| fn_name := "f"; fn_annotations := Some {["a" := lazy_obj]};
     fn_globals := ∅; fn_argspec_args := Some ["a"];
     fn_source := "def f(a: lazy): ..." |}.





End Lazy.

(** * Properties *)

(** ** Dictionaries *)

Section Dictionaries.

Context {V W : Type} (g : V -> W).

Lemma dict_comprehension_total (f : V -> result W) items acc :
  (forall v, f v = Ok (g v)) ->
  dict_comprehension f items acc = Ok (foldl (put g) acc items).
Proof.
  intros Hf. revert acc.
  induction items as [|[k v] rest IH]; intros acc; simpl; [done|].
  rewrite Hf. simpl. apply IH.
Qed.

Lemma foldl_put_other items acc k :
  k ∉ items.*1 -> foldl (put g) acc items !! k = acc !! k.
Proof.
  revert acc. induction items as [|[k' v'] rest IH]; intros acc Hk; simpl; [done|].
  rewrite fmap_cons, not_elem_of_cons in Hk. destruct Hk as [Hne Hrest].
  rewrite IH by done. unfold put. simpl in *. by rewrite lookup_insert_ne.
Qed.

Lemma foldl_put_member items acc k v :
  NoDup items.*1 -> (k, v) ∈ items -> foldl (put g) acc items !! k = Some (g v).
Proof.
  revert acc. induction items as [|[k' v'] rest IH]; intros acc Hnd Hin; simpl.
  - by apply elem_of_nil in Hin.
  - rewrite fmap_cons in Hnd. apply NoDup_cons in Hnd as [Hfresh Hnd].
    apply elem_of_cons in Hin as [Heq|Hin].
    + simplify_eq. rewrite foldl_put_other by done.
      unfold put. simpl. by rewrite lookup_insert_eq.
    + by apply IH.
Qed.

Lemma foldl_put_dom items acc k :
  is_Some (foldl (put g) acc items !! k) <-> k ∈ items.*1 \/ is_Some (acc !! k).
Proof.
  revert acc. induction items as [|[k' v'] rest IH]; intros acc; simpl.
  - split; [by right|]. intros [H|H]; [by apply elem_of_nil in H|done].
  - rewrite IH. unfold put. simpl. rewrite elem_of_cons.
    destruct (decide (k' = k)) as [->|Hne].
    + rewrite lookup_insert_eq. intuition eauto.
    + rewrite lookup_insert_ne by done. intuition congruence.
Qed.

End Dictionaries.

Lemma zip_fst_NoDup {A B} (xs : list A) (ys : list B) :
  NoDup xs -> NoDup (zip xs ys).*1.
Proof.
  revert ys. induction xs as [|x xs IH]; intros ys Hnd; simpl; [constructor|].
  destruct ys as [|y ys]; simpl; [constructor|].
  apply NoDup_cons in Hnd as [Hx Hnd]. apply NoDup_cons. split; [|by apply IH].
  intros Hin. apply Hx. clear -Hin. revert ys Hin.
  induction xs as [|x' xs IH]; intros ys Hin; simpl in *.
  - by apply elem_of_nil in Hin.
  - destruct ys as [|y' ys]; simpl in *; [by apply elem_of_nil in Hin|].
    apply elem_of_cons in Hin as [->|Hin]; [left|right; eauto].
Qed.

Lemma zip_lookup {A B} (xs : list A) (ys : list B) i x y :
  xs !! i = Some x -> ys !! i = Some y -> (x, y) ∈ zip xs ys.
Proof.
  revert ys i. induction xs as [|x' xs IH]; intros ys i Hx Hy; [done|].
  destruct ys as [|y' ys]; [done|]. destruct i as [|i]; simpl in *.
  - simplify_eq. left.
  - right. eauto.
Qed.

Lemma zip_fst_same_length {A B} (xs : list A) (ys : list B) :
  length xs = length ys -> (zip xs ys).*1 = xs.
Proof.
  revert ys. induction xs as [|x xs IH]; intros [|y ys] Hlen; simpl in *;
    try done. f_equal. apply IH. lia.
Qed.

(** ** Descriptor resolution *)

Section Resolution.

Context (L : library).

Lemma create_datadescriptor_eq (obj : pyobj) :
  _create_datadescriptor L obj = Ok (spec_resolve L obj (spec_classify L obj)).
Proof.
  unfold _create_datadescriptor, spec_classify, spec_carried, getattr_descriptor.
  destruct (obj_as_Data obj) as [d|]; [done|].
  destruct (obj_descriptor obj) as [d|]; simpl; [done|].
  destruct (obj_as_ndarray obj) as [[ty shape]|]; [done|].
  destruct (symbolic_issymbolic L obj); [done|].
  by destruct (obj_as_typeclass obj).
Qed.


End Resolution.

(** ** Annotation resolution *)

Section Annotations.

Context (L : library).

Lemma comprehension_descriptors items acc :
  dict_comprehension (_create_datadescriptor L) items acc =
    Ok (foldl (put (spec_descriptor L)) acc items).
Proof. apply dict_comprehension_total, create_datadescriptor_eq. Qed.

Lemma get_type_annotations_cases f f_argnames decorator_args :
  (error_condition f f_argnames decorator_args /\
   exists e, _get_type_annotations L f f_argnames decorator_args = Err e) \/
  (~ error_condition f f_argnames decorator_args /\
   exists m, _get_type_annotations L f f_argnames decorator_args = Ok m).
Proof.
  unfold _get_type_annotations, error_condition, annotates_return,
    has_decorator_args, has_inline_annotations.
  rewrite !comprehension_descriptors.
  case_bool_decide as Hret; [left; split; eauto|].
  case_bool_decide as Hargs; case_bool_decide as Hann; simpl.
  - left. split; eauto.
  - case_bool_decide as Hlen.
    + left. split; [|eauto]. right. right. left. done.
    + right. split; [|eauto]. intuition lia.
  - case_bool_decide as Hlen.
    + left. split; [|eauto]. do 3 right. done.
    + right. split; [|eauto]. intuition lia.
  - right. split; [|eauto]. intuition lia.
Qed.

(** The returned mapping, when decorator arguments decide: parameter
    names matched positionally with the descriptors of the arguments. *)
Lemma get_type_annotations_decorator f f_argnames decorator_args :
  ~ annotates_return f -> has_decorator_args decorator_args ->
  ~ has_inline_annotations f ->
  length decorator_args = length f_argnames ->
  _get_type_annotations L f f_argnames decorator_args =
    Ok (foldl (put (spec_descriptor L)) ∅ (zip f_argnames decorator_args)).
Proof.
  unfold _get_type_annotations, annotates_return, has_decorator_args,
    has_inline_annotations.
  intros Hret Hargs Hann Hlen. rewrite !comprehension_descriptors.
  rewrite bool_decide_eq_false_2 by done.
  rewrite (bool_decide_eq_true_2 _ Hargs), (bool_decide_eq_false_2 _ Hann).
  simpl. by rewrite bool_decide_eq_false_2 by (intros ?; congruence).
Qed.

(** The returned mapping when there are no decorator arguments and no
    annotations: empty. *)
Lemma get_type_annotations_neither f f_argnames decorator_args :
  decorator_args = [] -> type_annotations_of f = ∅ ->
  _get_type_annotations L f f_argnames decorator_args = Ok ∅.
Proof.
  intros -> Hann. unfold _get_type_annotations. rewrite Hann. reflexivity.
Qed.

(** For a function whose annotations name parameters only, condition (4)
    reads as the specification words it: some but not all parameters are
    annotated. *)
Lemma partially_annotated_count f f_argnames :
  NoDup f_argnames ->
  (forall p, is_Some (type_annotations_of f !! p) -> p ∈ f_argnames) ->
  (has_inline_annotations f /\ size (type_annotations_of f) ≠ length f_argnames)
  <-> spec_partially_annotated f f_argnames.
Proof.
  unfold has_inline_annotations, spec_partially_annotated.
  set (ann := type_annotations_of f). intros Hnd Hsub.
  assert (Hdom : dom ann ⊆ (list_to_set f_argnames : gset string)).
  { intros p Hp. apply elem_of_list_to_set, Hsub. by apply elem_of_dom. }
  assert (Hlen : size (list_to_set f_argnames : gset string) = length f_argnames)
    by by apply size_list_to_set.
  pose proof (subseteq_size _ _ Hdom) as Hle. rewrite size_dom in Hle.
  split.
  - intros [Hpos Hne]. split.
    + destruct (map_choose ann) as (p & v & Hp).
      { intros ->. rewrite map_size_empty in Hpos. lia. }
      exists p. split; [apply Hsub|]; eauto.
    + destruct (decide (Forall (fun p => is_Some (ann !! p)) f_argnames))
        as [Hall|Hnall].
      * exfalso. apply Hne.
        assert ((list_to_set f_argnames : gset string) ⊆ dom ann).
        { intros p Hp. apply elem_of_list_to_set in Hp. apply elem_of_dom.
          rewrite Forall_forall in Hall. by apply Hall. }
        pose proof (subseteq_size _ _ H) as Hge. rewrite size_dom in Hge. lia.
      * apply not_Forall_Exists in Hnall; [|apply _].
        apply Exists_exists in Hnall as (p & Hp & Hnone).
        exists p. split; [done|]. by apply eq_None_not_Some.
  - intros [(p & Hp & Hsome) (q & Hq & Hnone)]. split.
    + destruct Hsome as [v Hv].
      destruct (decide (size ann = 0)) as [Hz|]; [|lia].
      apply map_size_empty_iff in Hz. rewrite Hz in Hv. by rewrite lookup_empty in Hv.
    + intros Heq.
      assert (dom ann ≡ (list_to_set f_argnames : gset string)) as Hd.
      { apply set_subseteq_size_equiv; [done|]. rewrite size_dom. lia. }
      assert (q ∈ dom ann) as Hqd by (rewrite Hd; by apply elem_of_list_to_set).
      apply elem_of_dom in Hqd as [v Hv]. congruence.
Qed.

End Annotations.

(** ** Running programs *)

Section Running.

Context {W : Type} (h : handler W).

Lemma run_bind {A B} (m : prog A) (f : A -> prog B) w :
  run h (bind m f) w =
    match run h m w with
    | (Ok a, w1, l1) =>
        let '(r, w2, l2) := run h (f a) w1 in (r, w2, l1 ++ l2)
    | (Err e, w1, l1) => (Err e, w1, l1)
    end.
Proof.
  revert w. induction m as [a|e|c k IH]; intros w; simpl.
  - by destruct (run h (f a) w) as [[r w2] l2].
  - done.
  - destruct (h c w) as [[x|e] w1]; [|done].
    rewrite IH. destruct (run h (k x) w1) as [[[a|e] w2] l1]; [|done].
    by destruct (run h (f a) w2) as [[r w3] l2].
Qed.

Lemma run_bind_inv {A B} (m : prog A) (f : A -> prog B) w r w' l :
  run h (bind m f) w = (r, w', l) ->
  (exists e, r = Err e /\ run h m w = (Err e, w', l)) \/
  (exists a w1 l1 l2, run h m w = (Ok a, w1, l1) /\
     run h (f a) w1 = (r, w', l2) /\ l = l1 ++ l2).
Proof.
  rewrite run_bind. destruct (run h m w) as [[[a|e] w1] l1].
  - destruct (run h (f a) w1) as [[r2 w2] l2] eqn:Hf.
    intros [= <- <- <-]. right. by exists a, w1, l1, l2.
  - intros [= <- <- <-]. left. eauto.
Qed.

Lemma run_avoids {A} (P : ext -> bool) (p : prog A) w r w' l :
  avoids P p -> run h p w = (r, w', l) -> Forall (fun c => P c = false) l.
Proof.
  revert w l. induction p as [a|e|c k IH]; intros w l Hp; simpl.
  - intros [= <- <- <-]. constructor.
  - intros [= <- <- <-]. constructor.
  - destruct Hp as [Hc Hk]. destruct (h c w) as [[x|e] w1].
    + destruct (run h (k x) w1) as [[r1 w2] l1] eqn:Hrun.
      intros [= <- <- <-]. constructor; [done|]. by eapply IH.
    + intros [= <- <- <-]. by repeat constructor.
Qed.

End Running.

Lemma avoids_bind {A B} P (m : prog A) (f : A -> prog B) :
  avoids P m -> (forall a, avoids P (f a)) -> avoids P (bind m f).
Proof.
  intros Hm Hf. induction m as [a|e|c k IH]; simpl in *; [done|done|].
  destruct Hm as [Hc Hk]. split; [done|]. intros x. by apply IH.
Qed.

Lemma avoids_call P c : P c = false -> avoids P (call c).
Proof. by intros Hc; split. Qed.

Lemma avoids_lift {A} P (r : result A) : avoids P (lift r).
Proof. by destruct r. Qed.

Lemma avoids_for_each {A} P (xs : list A) body :
  (forall x, avoids P (body x)) -> avoids P (for_each xs body).
Proof.
  intros Hb. induction xs as [|x xs IH]; simpl; [done|].
  apply avoids_bind; [done|]. by intros _.
Qed.

(** ** Generating the parsed program *)

Section Generation.

Context (L : library).

(** [generate_pdp] either raises without issuing a command, or issues
    exactly one: the call of the AST parser. *)
Lemma generate_pdp_shape self compilation_args :
  (exists e, generate_pdp L self compilation_args = Raise e) \/
  (exists argtypes global_vars,
     generate_pdp L self compilation_args =
       Call (astparser_parse_dace_program (dp_f self) argtypes global_vars
               (<["builtins" := ""]> (module_items L (fn_globals (dp_f self)))))
            (fun pdp =>
               Ret (pdp, <["builtins" := ""]>
                           (module_items L (fn_globals (dp_f self)))))).
Proof.
  unfold generate_pdp.
  destruct (_get_type_annotations L (dp_f self) (dp_argnames self) (dp_args self))
    as [argtypes|e]; simpl; [|left; eauto].
  case_bool_decide; [|right; eauto].
  case_bool_decide; [left; eauto|].
  case_bool_decide; [left; eauto|].
  rewrite comprehension_descriptors. right; eauto.
Qed.

Lemma generate_pdp_avoids self compilation_args :
  avoids finishing (generate_pdp L self compilation_args).
Proof.
  destruct (generate_pdp_shape self compilation_args)
    as [[e ->]|(argtypes & global_vars & ->)]; simpl; auto.
Qed.

Lemma module_items_lookup (globals : gmap string pyobj) k name :
  module_items L globals !! k = Some name <->
  exists v, globals !! k = Some v /\ dtypes_ismodule L v = true /\ obj_name v = name.
Proof.
  unfold module_items. rewrite lookup_fmap, fmap_Some. split.
  - intros (v & Hv & ->). apply map_lookup_filter_Some in Hv as [Hv Hm].
    simpl in Hm. exists v. split_and!; [done| |done]. by apply Is_true_true.
  - intros (v & Hv & Hm & <-). exists v. split; [|done].
    apply map_lookup_filter_Some. split; [done|]. simpl. by apply Is_true_true.
Qed.

(** C1.  When decorator arguments and inline annotations are both
    present, [_get_type_annotations] raises a usage error, and so do
    [generate_pdp] and [parse_from_function], whatever the
    collaborators: no command has been issued at that point, so the AST
    parser has not been called. *)
Theorem both_sources_rejected_before_parsing {W} (h : handler W) (w : W)
    (self : DaceProgram) (compilation_args : list pyobj) (strict : option bool) :
  has_decorator_args (dp_args self) ->
  has_inline_annotations (dp_f self) ->
  exists e,
    (e = TypeError msg_return_type \/ e = SyntaxError msg_both) /\
    _get_type_annotations L (dp_f self) (dp_argnames self) (dp_args self) = Err e /\
    run h (generate_pdp L self compilation_args) w = (Err e, w, []) /\
    run h (parse_from_function L (HProgram self) compilation_args strict) w =
      (Err e, w, []).
Proof.
  intros Hargs Hann.
  assert (exists e, (e = TypeError msg_return_type \/ e = SyntaxError msg_both) /\
            _get_type_annotations L (dp_f self) (dp_argnames self) (dp_args self)
              = Err e) as (e & He & Hget).
  { unfold _get_type_annotations.
    unfold has_decorator_args, has_inline_annotations in *.
    case_bool_decide; [eauto|].
    rewrite !bool_decide_eq_true_2 by done. simpl. eauto. }
  exists e. split_and!; [done|done| |].
  - unfold generate_pdp. by rewrite Hget.
  - unfold parse_from_function, generate_pdp. by rewrite Hget.
Qed.


(** C9 (as amended).  The alias mapping returned by [generate_pdp] maps
    [builtins] to the empty string, and binds every other name exactly
    when the globals bind it to a module, to that module's name. *)
Theorem generate_pdp_module_aliases {W} (h : handler W) (w w' : W)
    (self : DaceProgram) (compilation_args : list pyobj) pdp modules l :
  run h (generate_pdp L self compilation_args) w = (Ok (pdp, modules), w', l) ->
  modules !! "builtins" = Some "" /\
  forall k name, k ≠ "builtins" ->
    (modules !! k = Some name <->
     exists v, fn_globals (dp_f self) !! k = Some v /\
               dtypes_ismodule L v = true /\ obj_name v = name).
Proof.
  destruct (generate_pdp_shape self compilation_args)
    as [[e ->]|(argtypes & global_vars & ->)]; simpl; [done|].
  destruct (h _ w) as [[x|e] w1]; [|done]. intros [= _ <- _ _].
  split; [apply lookup_insert_eq|].
  intros k name Hk. rewrite lookup_insert_ne by done.
  apply module_items_lookup.
Qed.

End Generation.

(** ** The construction driver *)

Section Construction.

Context (L : library).

Lemma populate_avoids pdp modules sdfg :
  avoids finishing (populate pdp modules sdfg).
Proof.
  unfold populate.
  repeat first
    [ apply avoids_bind; [|intros ?]
    | apply avoids_for_each; intros ?
    | apply avoids_call; reflexivity
    | exact I
    | match goal with
      | |- avoids _ (let '(_, _) := ?x in _) => destruct x
      | |- avoids _ (match ?x with _ => _ end) => destruct x
      | |- avoids _ (if ?x then _ else _) => destruct x
      end ].
Qed.

Lemma strict_enabled_requested strict :
  strict_enabled L strict = true <-> spec_strict_requested L strict.
Proof.
  unfold spec_strict_requested. destruct strict as [[]|]; simpl.
  - split; [by left|done].
  - split; [done|]. intros [?|[? _]]; done.
  - split; [by right|]. intros [?|[_ ?]]; done.
Qed.

(** The commands of the last stage. *)
Lemma finish_run {W} (h : handler W) sdfg strict w r w' l :
  run h (finish L sdfg strict) w = (r, w', l) ->
  (forall g, SDFG_apply_strict_transformations g ∈ l ->
     strict_enabled L strict = true) /\
  (forall g, r = Ok g ->
     g = sdfg /\
     l = SDFG_draw_to_file sdfg true ::
         (if strict_enabled L strict
          then [SDFG_apply_strict_transformations sdfg] else []) ++
         [SDFG_draw_to_file sdfg true; SDFG_validate sdfg]).
Proof.
  unfold finish. destruct (strict_enabled L strict); simpl;
    repeat (match goal with
            | |- context [h ?c ?w] => destruct (h c w) as [[[]|?] ?]
            end; simpl);
    intros [= <- <- <-]; (split; [|by intros g [= <-]]); intros g Hin;
    try done; exfalso;
    repeat (apply elem_of_cons in Hin as [Hin|Hin]; [discriminate Hin|]);
    by apply elem_of_nil in Hin.
Qed.

(** A run of [parse_from_function] issues commands other than the
    strict transformations and validation, and then either has failed
    or runs the last stage. *)
Lemma parse_from_function_run {W} (h : handler W) function compilation_args
    strict w r w' l :
  run h (parse_from_function L function compilation_args strict) w = (r, w', l) ->
  exists l1 l2,
    l = l1 ++ l2 /\ Forall (fun c => finishing c = false) l1 /\
    ((l2 = [] /\ exists e, r = Err e) \/
     (exists sdfg w1, run h (finish L sdfg strict) w1 = (r, w', l2))).
Proof.
  assert (Hstep : forall A (m : prog A) (f : A -> prog N) w0 r0 w0' l0,
    avoids finishing m ->
    (forall a w1 l',
       run h (f a) w1 = (r0, w0', l') ->
       exists l1 l2,
         l' = l1 ++ l2 /\ Forall (fun c => finishing c = false) l1 /\
         ((l2 = [] /\ exists e, r0 = Err e) \/
          (exists sdfg w2, run h (finish L sdfg strict) w2 = (r0, w0', l2)))) ->
    run h (bind m f) w0 = (r0, w0', l0) ->
    exists l1 l2,
      l0 = l1 ++ l2 /\ Forall (fun c => finishing c = false) l1 /\
      ((l2 = [] /\ exists e, r0 = Err e) \/
       (exists sdfg w2, run h (finish L sdfg strict) w2 = (r0, w0', l2)))).
  { intros A m f w0 r0 w0' l0 Hm Hf Hrun.
    apply run_bind_inv in Hrun
      as [(e & -> & Hrun)|(a & w1 & l1 & l2 & Hrun & Hrest & ->)].
    - exists l0, []. rewrite app_nil_r. split_and!; [done| |left; eauto].
      by eapply run_avoids.
    - destruct (Hf _ _ _ Hrest) as (l3 & l4 & -> & Hl3 & Hcases).
      exists (l1 ++ l3), l4. rewrite app_assoc. split_and!; [done| |done].
      apply Forall_app. split; [|done]. by eapply run_avoids. }
  unfold parse_from_function. destruct function as [self|o].
  - apply Hstep; [apply generate_pdp_avoids|].
    intros [pdp modules] w1 l1. cbv beta iota.
    do 4 (apply Hstep; [by apply avoids_call|]; intros ? ? ?).
    apply Hstep; [apply populate_avoids|]. intros _ w6 l6 Hfin.
    exists [], l6. split_and!; [done|constructor|right; eauto].
  - intros [= <- <- <-]. exists [], []. split_and!; [done|constructor|left; eauto].
Qed.

(** C3 (as amended).  In a run of [parse_from_function] that returns an
    SDFG, validation of that SDFG is the last command and the only
    validation; the strict transformations, when requested, are applied
    to the SDFG before it is validated, and not at all otherwise. *)
Theorem validation_is_terminal {W} (h : handler W) function compilation_args
    strict w sdfg w' l :
  run h (parse_from_function L function compilation_args strict) w
    = (Ok sdfg, w', l) ->
  exists l0,
    Forall (fun c => finishing c = false) l0 /\
    l = l0 ++
        (if strict_enabled L strict
         then [SDFG_apply_strict_transformations sdfg] else []) ++
        [SDFG_draw_to_file sdfg true; SDFG_validate sdfg].
Proof.
  intros Hrun.
  apply parse_from_function_run in Hrun
    as (l1 & l2 & -> & Hl1 & [[_ [e ?]]|(g & w1 & Hfin)]); [done|].
  apply finish_run in Hfin as [_ Hok].
  destruct (Hok sdfg eq_refl) as [<- ->].
  exists (l1 ++ [SDFG_draw_to_file sdfg true]). split.
  - apply Forall_app. split; [done|]. by repeat constructor.
  - by rewrite <- app_assoc.
Qed.

(** C8.  In a run of [parse_from_function], the strict transformations
    are applied only if [strict] is True, or [strict] is None and the
    configured [automatic_state_fusion] flag is set; in a run that
    returns an SDFG they are then applied to it.  With [strict] False
    they are never applied. *)
Theorem strict_transformations_toggle {W} (h : handler W) function
    compilation_args strict w r w' l :
  run h (parse_from_function L function compilation_args strict) w = (r, w', l) ->
  ((exists g, SDFG_apply_strict_transformations g ∈ l) ->
   spec_strict_requested L strict) /\
  (forall sdfg, r = Ok sdfg ->
     (SDFG_apply_strict_transformations sdfg ∈ l <->
      spec_strict_requested L strict)) /\
  (strict = Some false -> forall g, SDFG_apply_strict_transformations g ∉ l).
Proof.
  intros Hrun.
  apply parse_from_function_run in Hrun as (l1 & l2 & -> & Hl1 & Hcases).
  assert (Hnot1 : forall g, SDFG_apply_strict_transformations g ∉ l1).
  { intros g Hin. rewrite Forall_forall in Hl1. by specialize (Hl1 _ Hin). }
  assert (Honly : (exists g, SDFG_apply_strict_transformations g ∈ l1 ++ l2) ->
                  spec_strict_requested L strict).
  { intros [g Hin]. apply elem_of_app in Hin as [Hin|Hin]; [by destruct (Hnot1 g)|].
    destruct Hcases as [[-> _]|(sdfg & w1 & Hfin)]; [by apply elem_of_nil in Hin|].
    apply finish_run in Hfin as [Hstrict _].
    apply strict_enabled_requested. eauto. }
  split_and!; [done| |].
  - intros sdfg ->. split; [eauto|]. intros Hreq.
    destruct Hcases as [[_ [e ?]]|(g & w1 & Hfin)]; [done|].
    apply finish_run in Hfin as [_ Hok]. destruct (Hok sdfg eq_refl) as [<- ->].
    apply strict_enabled_requested in Hreq. rewrite Hreq.
    apply elem_of_app. right. right. left.
  - intros -> g Hin. destruct Honly as [?|[? _]]; [eauto|done|done].
Qed.

End Construction.

(** ** Parsing a file *)

Section Files.

Context (L : library).

Lemma call_global_parse_function program compilation_args :
  call_global L "parse_function" program compilation_args =
    Raise (NameError "parse_function").
Proof. reflexivity. Qed.

(** [parse_from_file] returns the empty list for a module without
    programs, and fails on the unbound name [parse_function] as soon as
    the module holds one. *)
Lemma parse_from_file_run {W} (h : handler W) w filename compilation_args
    code w1 module w2 :
  h (open_read filename) w = (Ok code, w1) ->
  h (compile_exec code filename) w1 = (Ok module, w2) ->
  run h (parse_from_file L filename compilation_args) w =
    (match omap (fun kv => match kv.2 with
                           | HProgram p => Some p
                           | HObject _ => None
                           end) module with
     | [] => Ok []
     | _ :: _ => Err (NameError "parse_function")
     end, w2, [open_read filename; compile_exec code filename]).
Proof.
  intros Hopen Hcompile. unfold parse_from_file, _compile_module. simpl.
  rewrite Hopen. simpl. rewrite Hcompile.
  destruct (omap _ module) as [|p programs]; [done|].
  reflexivity.
Qed.

End Files.

(** * Examples *)

Import Demo.

(** C10.  On a file that defines one DaCe program, [parse_from_file]
    raises NameError for [parse_function], a name the module does not
    bind, after reading and compiling the file; [parse_from_function]
    on that same program returns an SDFG. *)
Theorem parse_from_file_unbound_name :
  run (collaborators one_program_module)
      (parse_from_file (lib true) "kernels.py" args2) tt
    = (Err (NameError "parse_function"), tt,
       [open_read "kernels.py"; compile_exec "import dace" "kernels.py"]) /\
  (run (collaborators one_program_module)
       (parse_from_function (lib true) (HProgram bare) args2 None) tt).1.1
    = Ok 2%N.
Proof. split; vm_compute; reflexivity. Qed.

(** C3, the claim as worded fails: with [strict=True] the strict
    transformations are applied in a run, and no validation precedes
    them. *)
Lemma optimization_before_validation_counterexample :
  ~ spec_validated_before_optimized
      (run (collaborators [])
           (parse_from_function (lib true) (HProgram bare) args2 (Some true)) tt).2.
Proof.
  intros Hspec.
  set (l := (run (collaborators [])
               (parse_from_function (lib true) (HProgram bare) args2 (Some true))
               tt).2) in *.
  destruct (Hspec (take 25 l) 2%N (drop 26 l)) as [g Hg].
  { vm_compute. reflexivity. }
  assert (existsb finishing (take 25 l) = true) as Hex.
  { apply existsb_exists. exists (SDFG_validate g).
    split; [by apply list_elem_of_In|done]. }
  vm_compute in Hex. discriminate Hex.
Qed.

(** C9, the claim as worded fails: with [import builtins] among the
    globals, the binding [builtins] of a module is not mapped to the
    module's name. *)
Lemma builtins_alias_counterexample :
  exists pdp modules l,
    run (collaborators []) (generate_pdp (lib true) with_builtins args2) tt
      = (Ok (pdp, modules), tt, l) /\
    ~ spec_module_aliases (lib true) (dp_f with_builtins) modules.
Proof.
  eexists _, _, _. split; [vm_compute; reflexivity|].
  intros [_ Hall]. specialize (Hall "builtins" builtins_module).
  vm_compute in Hall. specialize (Hall eq_refl eq_refl). discriminate Hall.
Qed.

(** [@dace.program(dace.float64, dace.float64)] on a function with an
    annotated parameter. *)
Lemma both_sources_rejected_witness :
  has_decorator_args (dp_args both) /\
  has_inline_annotations (dp_f both) /\
  exists e,
    (e = TypeError msg_return_type \/ e = SyntaxError msg_both) /\
    _get_type_annotations (lib true) (dp_f both) (dp_argnames both) (dp_args both)
      = Err e /\
    run (collaborators []) (generate_pdp (lib true) both args2) tt = (Err e, tt, []) /\
    run (collaborators []) (parse_from_function (lib true) (HProgram both) args2 None) tt
      = (Err e, tt, []).
Proof.
  assert (H1 : has_decorator_args (dp_args both)).
  { unfold has_decorator_args. simpl. lia. }
  assert (H2 : has_inline_annotations (dp_f both)).
  { unfold has_inline_annotations. vm_compute. lia. }
  split; [exact H1|]. split; [exact H2|].
  exact (both_sources_rejected_before_parsing (lib true) (collaborators []) tt
           both args2 None H1 H2).
Defined.


(** [import numpy as np] in the globals. *)
Lemma generate_pdp_module_aliases_witness :
  run (collaborators []) (generate_pdp (lib true) bare args2) tt
    = (Ok (1%N, {["builtins" := ""; "np" := "numpy"]}), tt,
       (run (collaborators []) (generate_pdp (lib true) bare args2) tt).2) /\
  ({["builtins" := ""; "np" := "numpy"]} : gmap string string) !! "builtins"
    = Some "" /\
  forall k name, k ≠ "builtins" ->
    (({["builtins" := ""; "np" := "numpy"]} : gmap string string) !! k = Some name <->
     exists v, fn_globals (dp_f bare) !! k = Some v /\
               dtypes_ismodule (lib true) v = true /\ obj_name v = name).
Proof.
  assert (H : run (collaborators []) (generate_pdp (lib true) bare args2) tt
    = (Ok (1%N, {["builtins" := ""; "np" := "numpy"]}), tt,
       (run (collaborators []) (generate_pdp (lib true) bare args2) tt).2)).
  { vm_compute. reflexivity. }
  split; [exact H|].
  exact (generate_pdp_module_aliases (lib true) (collaborators []) tt tt bare
           args2 _ _ _ H).
Defined.

(** A run with [strict=False]. *)
Lemma validation_is_terminal_witness :
  run (collaborators [])
      (parse_from_function (lib true) (HProgram bare) args2 (Some false)) tt
    = (Ok 2%N, tt,
       (run (collaborators [])
            (parse_from_function (lib true) (HProgram bare) args2 (Some false)) tt).2) /\
  exists l0,
    Forall (fun c => finishing c = false) l0 /\
    (run (collaborators [])
         (parse_from_function (lib true) (HProgram bare) args2 (Some false)) tt).2
      = l0 ++ (if strict_enabled (lib true) (Some false)
               then [SDFG_apply_strict_transformations 2%N] else []) ++
              [SDFG_draw_to_file 2%N true; SDFG_validate 2%N].
Proof.
  assert (H : run (collaborators [])
      (parse_from_function (lib true) (HProgram bare) args2 (Some false)) tt
    = (Ok 2%N, tt,
       (run (collaborators [])
            (parse_from_function (lib true) (HProgram bare) args2 (Some false)) tt).2)).
  { vm_compute. reflexivity. }
  split; [exact H|].
  exact (validation_is_terminal (lib true) (collaborators []) (HProgram bare)
           args2 (Some false) tt 2%N tt _ H).
Defined.

(** A run with [strict=None] and the configured flag set. *)
Lemma strict_transformations_toggle_witness :
  run (collaborators [])
      (parse_from_function (lib true) (HProgram bare) args2 None) tt
    = (Ok 2%N, tt,
       (run (collaborators [])
            (parse_from_function (lib true) (HProgram bare) args2 None) tt).2) /\
  (SDFG_apply_strict_transformations 2%N ∈
     (run (collaborators [])
          (parse_from_function (lib true) (HProgram bare) args2 None) tt).2 <->
   spec_strict_requested (lib true) None).
Proof.
  assert (H : run (collaborators [])
      (parse_from_function (lib true) (HProgram bare) args2 None) tt
    = (Ok 2%N, tt,
       (run (collaborators [])
            (parse_from_function (lib true) (HProgram bare) args2 None) tt).2)).
  { vm_compute. reflexivity. }
  split; [exact H|].
  exact (proj1 (proj2 (strict_transformations_toggle (lib true) (collaborators [])
                         (HProgram bare) args2 None tt _ tt _ H)) 2%N eq_refl).
Defined.

(** * Further properties of the module *)

(** ** The mappings returned by annotation resolution *)

Section Mappings.

Context (L : library).

Lemma foldl_put_map_to_list {V W} (g : V -> W) (m : gmap string V) :
  foldl (put g) ∅ (map_to_list m) = g <$> m.
Proof.
  apply map_eq. intros k. rewrite lookup_fmap.
  destruct (m !! k) as [v|] eqn:Hk; simpl.
  - apply foldl_put_member; [apply NoDup_fst_map_to_list|].
    by apply elem_of_map_to_list.
  - rewrite foldl_put_other; [apply lookup_empty|].
    intros Hin. apply list_elem_of_fmap in Hin as ([k' v] & -> & Hin).
    apply elem_of_map_to_list in Hin. simpl in Hk. congruence.
Qed.

Lemma foldl_put_lookup_inv {V W} (g : V -> W) items acc k w :
  foldl (put g) acc items !! k = Some w ->
  (exists v, (k, v) ∈ items /\ w = g v) \/ acc !! k = Some w.
Proof.
  revert acc. induction items as [|[k' v'] rest IH]; intros acc; simpl.
  - by right.
  - intros Hl. apply IH in Hl as [(v & Hin & ->)|Hl].
    + left. exists v. split; [by right|done].
    + unfold put in Hl. simpl in Hl.
      destruct (decide (k' = k)) as [->|Hne].
      * rewrite lookup_insert_eq in Hl. injection Hl as <-.
        left. exists v'. split; [left|done].
      * rewrite lookup_insert_ne in Hl by done. by right.
Qed.

Lemma get_type_annotations_annotated f f_argnames :
  ~ error_condition f f_argnames [] ->
  _get_type_annotations L f f_argnames [] =
    Ok (spec_descriptor L <$> type_annotations_of f).
Proof.
  intros Hok.
  destruct (get_type_annotations_cases L f f_argnames []) as [[Hc _]|[_ [m Hm]]];
    [done|].
  revert Hm. unfold _get_type_annotations. rewrite !comprehension_descriptors.
  rewrite foldl_put_map_to_list.
  repeat case_bool_decide; simpl in *; try lia; congruence.
Qed.

(** A type map obtained from decorator arguments or from annotations
    is not empty. *)
Lemma get_type_annotations_nonempty f f_argnames decorator_args m :
  has_decorator_args decorator_args \/ has_inline_annotations f ->
  _get_type_annotations L f f_argnames decorator_args = Ok m -> m ≠ ∅.
Proof.
  intros Hsrc Hm.
  destruct (get_type_annotations_cases L f f_argnames decorator_args)
    as [[_ [e He]]|[Hok _]]; [congruence|].
  destruct (decide (0 < length decorator_args)) as [Hargs|Hnargs].
  - assert (Hlen : length decorator_args = length f_argnames).
    { destruct (decide (length decorator_args = length f_argnames)); [done|].
      destruct Hok. right. right. left. done. }
    rewrite get_type_annotations_decorator in Hm; [| | done | | done].
    + injection Hm as <-. destruct f_argnames as [|name rest]; [simpl in *; lia|].
      intros Hempty.
      assert (is_Some (foldl (put (spec_descriptor L)) ∅
                         (zip (name :: rest) decorator_args) !! name)) as Hs.
      { apply foldl_put_dom. left. rewrite zip_fst_same_length by done. left. }
      rewrite Hempty, lookup_empty in Hs. by destruct Hs.
    + intros ?. apply Hok. by left.
    + intros ?. apply Hok. right. left. done.
  - destruct decorator_args as [|a rest]; [|simpl in Hnargs; lia].
    destruct Hsrc as [Hargs|Hann]; [done|].
    rewrite get_type_annotations_annotated in Hm by done. injection Hm as <-.
    intros Hempty. apply fmap_empty_inv in Hempty.
    unfold has_inline_annotations in Hann. rewrite Hempty, map_size_empty in Hann.
    lia.
Qed.



End Mappings.

(** ** What [generate_pdp] hands to the AST parser *)

Section ParserInput.

Context (L : library).

Lemma generate_pdp_explicit self compilation_args :
  (exists e, generate_pdp L self compilation_args = Raise e) \/
  (exists argtypes,
     generate_pdp L self compilation_args =
       Call (astparser_parse_dace_program (dp_f self) argtypes
               (generated_global_vars L self)
               (<["builtins" := ""]> (module_items L (fn_globals (dp_f self)))))
            (fun pdp =>
               Ret (pdp, <["builtins" := ""]>
                           (module_items L (fn_globals (dp_f self)))))).
Proof.
  unfold generate_pdp, generated_global_vars.
  destruct (_get_type_annotations L (dp_f self) (dp_argnames self) (dp_args self))
    as [argtypes|e]; simpl; [|left; eauto].
  case_bool_decide; [|right; eauto].
  case_bool_decide; [left; eauto|].
  case_bool_decide; [left; eauto|].
  rewrite comprehension_descriptors. right; eauto.
Qed.

Lemma generate_pdp_parser_call {W} (h : handler W) self compilation_args
    w r w' l f argtypes global_vars modules :
  run h (generate_pdp L self compilation_args) w = (r, w', l) ->
  astparser_parse_dace_program f argtypes global_vars modules ∈ l ->
  f = dp_f self /\ global_vars = generated_global_vars L self /\
  modules = <["builtins" := ""]> (module_items L (fn_globals (dp_f self))).
Proof.
  destruct (generate_pdp_explicit self compilation_args)
    as [[e ->]|(at' & ->)]; simpl.
  - intros [= <- <- <-] Hin. by apply elem_of_nil in Hin.
  - destruct (h _ w) as [[x|e] w1]; intros [= <- <- <-] Hin;
      apply list_elem_of_singleton in Hin; by injection Hin as -> -> -> ->.
Qed.

(** When decorator arguments or inline annotations are present,
    [generate_pdp] does not look at the compilation arguments: neither
    their values nor their number matter. *)
Theorem compilation_args_ignored self compilation_args compilation_args' :
  has_decorator_args (dp_args self) \/ has_inline_annotations (dp_f self) ->
  generate_pdp L self compilation_args = generate_pdp L self compilation_args'.
Proof.
  intros Hsrc. unfold generate_pdp.
  destruct (_get_type_annotations L (dp_f self) (dp_argnames self) (dp_args self))
    as [m|e] eqn:Hget; simpl; [|done].
  apply get_type_annotations_nonempty in Hget; [|done].
  by rewrite !bool_decide_eq_false_2 by done.
Qed.

(** [generate_pdp] issues at most one command, the call of the AST
    parser: it either raises without any command, or returns the
    program the parser answered together with the alias map, or
    propagates the exception of the parser. *)
Theorem generate_pdp_footprint {W} (h : handler W) self compilation_args
    w r w' l :
  run h (generate_pdp L self compilation_args) w = (r, w', l) ->
  (l = [] /\ w' = w /\ exists e, r = Err e) \/
  (exists argtypes modules,
     l = [astparser_parse_dace_program (dp_f self) argtypes
            (generated_global_vars L self) modules] /\
     ((exists pdp,
         h (astparser_parse_dace_program (dp_f self) argtypes
              (generated_global_vars L self) modules) w = (Ok pdp, w') /\
         r = Ok (pdp, modules)) \/
      (exists e,
         h (astparser_parse_dace_program (dp_f self) argtypes
              (generated_global_vars L self) modules) w = (Err e, w') /\
         r = Err e))).
Proof.
  destruct (generate_pdp_explicit self compilation_args)
    as [[e ->]|(argtypes & ->)]; simpl.
  - intros [= <- <- <-]. left. eauto.
  - destruct (h _ w) as [[x|e] w1] eqn:Hh; intros [= <- <- <-]; right;
      eexists _, _; (split; [reflexivity|]); rewrite Hh; [left|right]; eauto.
Qed.

Lemma allowed_items_lookup (d : gmap string pyobj) k v :
  allowed_items L d !! k = Some v <->
  d !! k = Some v /\ dtypes_isallowed L v = true.
Proof.
  unfold allowed_items. rewrite map_lookup_filter_Some. simpl.
  by rewrite Is_true_true.
Qed.

Lemma symbol_items_lookup (d : gmap string pyobj) n v :
  symbol_items d !! n = Some v ->
  obj_as_symbol v = Some n /\ exists k, d !! k = Some v.
Proof.
  unfold symbol_items, dict_of_items. intros Hl.
  apply foldl_put_lookup_inv in Hl as [(v' & Hin & ->)|Hl];
    [|by rewrite lookup_empty in Hl].
  apply list_elem_of_omap in Hin as ([k u] & Hin & Hsym). simpl in Hsym.
  destruct (obj_as_symbol u) as [name|] eqn:Hname; [|done].
  simpl in Hsym. injection Hsym as <- <-.
  apply elem_of_map_to_list in Hin. split; [done|]. by exists k.
Qed.

Lemma symbol_items_dom (d : gmap string pyobj) n :
  is_Some (symbol_items d !! n) <->
  exists k v, d !! k = Some v /\ obj_as_symbol v = Some n.
Proof.
  unfold symbol_items, dict_of_items. rewrite foldl_put_dom, lookup_empty.
  split.
  - intros [Hin|[? ?]]; [|done].
    apply list_elem_of_fmap in Hin as ([n' v] & -> & Hin).
    apply list_elem_of_omap in Hin as ([k u] & Hin & Hsym). simpl in Hsym.
    destruct (obj_as_symbol u) as [name|] eqn:Hname; [|done].
    simpl in Hsym. injection Hsym as <- <-.
    apply elem_of_map_to_list in Hin. by exists k, u.
  - intros (k & v & Hk & Hsym). left.
    apply list_elem_of_fmap. exists (n, v). split; [done|].
    apply list_elem_of_omap. exists (k, v). split.
    + by apply elem_of_map_to_list.
    + simpl. by rewrite Hsym.
Qed.

(** Every constant [generate_pdp] hands to the AST parser is allowed
    by [dtypes.isallowed], whether it comes from the globals, from a
    symbol or from the keyword arguments of the decorator. *)
Theorem parser_receives_allowed_constants {W} (h : handler W) self
    compilation_args w r w' l f argtypes global_vars modules :
  run h (generate_pdp L self compilation_args) w = (r, w', l) ->
  astparser_parse_dace_program f argtypes global_vars modules ∈ l ->
  forall k v, global_vars !! k = Some v -> dtypes_isallowed L v = true.
Proof.
  intros Hrun Hin. destruct (generate_pdp_parser_call h _ _ _ _ _ _ _ _ _ _ Hrun Hin)
    as (_ & -> & _).
  intros k v. unfold generated_global_vars.
  rewrite !lookup_union_Some_raw.
  intros [Hk|[_ [Hk|[_ Hk]]]].
  - by apply allowed_items_lookup in Hk as [_ ?].
  - apply symbol_items_lookup in Hk as [_ [k' Hk']].
    by apply allowed_items_lookup in Hk' as [_ ?].
  - by apply allowed_items_lookup in Hk as [_ ?].
Qed.

(** An allowed keyword argument of the decorator reaches the AST parser
    under its name and shadows a global or a symbol of that name; an
    allowed global reaches it under its name unless a keyword argument
    or the name of a symbol shadows it. *)
Theorem keyword_arguments_shadow_globals {W} (h : handler W) self
    compilation_args w r w' l f argtypes global_vars modules :
  run h (generate_pdp L self compilation_args) w = (r, w', l) ->
  astparser_parse_dace_program f argtypes global_vars modules ∈ l ->
  (forall k v, dp_kwargs self !! k = Some v -> dtypes_isallowed L v = true ->
     global_vars !! k = Some v) /\
  (forall k v, fn_globals (dp_f self) !! k = Some v ->
     dtypes_isallowed L v = true ->
     (forall u, dp_kwargs self !! k = Some u -> dtypes_isallowed L u = false) ->
     (forall k' v', fn_globals (dp_f self) !! k' = Some v' ->
        dtypes_isallowed L v' = true -> obj_as_symbol v' ≠ Some k) ->
     global_vars !! k = Some v).
Proof.
  intros Hrun Hin. destruct (generate_pdp_parser_call h _ _ _ _ _ _ _ _ _ _ Hrun Hin)
    as (_ & -> & _).
  unfold generated_global_vars. split.
  - intros k v Hk Hv. apply lookup_union_Some_l. by apply allowed_items_lookup.
  - intros k v Hk Hv Hkw Hsym. rewrite !lookup_union_Some_raw.
    right. split.
    + apply eq_None_not_Some. intros [u Hu].
      apply allowed_items_lookup in Hu as [Hu1 Hu2].
      specialize (Hkw _ Hu1). congruence.
    + right. split; [|by apply allowed_items_lookup].
      apply eq_None_not_Some. intros Hs.
      apply symbol_items_dom in Hs as (k' & v' & Hk' & Hname).
      apply allowed_items_lookup in Hk' as [Hk1 Hk2].
      by apply (Hsym k' v').
Qed.

(** An allowed symbol of the globals reaches the AST parser under the
    symbol's own name as well, whatever name the globals bind it to,
    when no allowed keyword argument has that name and no other allowed
    symbol of the globals carries it. *)
Theorem symbols_passed_under_own_name {W} (h : handler W) self
    compilation_args w r w' l f argtypes global_vars modules :
  run h (generate_pdp L self compilation_args) w = (r, w', l) ->
  astparser_parse_dace_program f argtypes global_vars modules ∈ l ->
  forall k v n,
    fn_globals (dp_f self) !! k = Some v -> dtypes_isallowed L v = true ->
    obj_as_symbol v = Some n ->
    (forall u, dp_kwargs self !! n = Some u -> dtypes_isallowed L u = false) ->
    (forall k' v', fn_globals (dp_f self) !! k' = Some v' ->
       dtypes_isallowed L v' = true -> obj_as_symbol v' = Some n -> v' = v) ->
    global_vars !! n = Some v.
Proof.
  intros Hrun Hin. destruct (generate_pdp_parser_call h _ _ _ _ _ _ _ _ _ _ Hrun Hin)
    as (_ & -> & _).
  intros k v n Hk Hv Hname Hkw Hunique.
  assert (is_Some (symbol_items (allowed_items L (fn_globals (dp_f self))) !! n))
    as [v' Hv'].
  { apply symbol_items_dom. exists k, v. split; [|done].
    by apply allowed_items_lookup. }
  pose proof Hv' as Hs.
  apply symbol_items_lookup in Hs as [Hn [k' Hk']].
  apply allowed_items_lookup in Hk' as [Hk1 Hk2].
  assert (v' = v) as -> by by eapply Hunique.
  unfold generated_global_vars. rewrite !lookup_union_Some_raw.
  right. split; [|by left].
  apply eq_None_not_Some. intros [u Hu].
  apply allowed_items_lookup in Hu as [Hu1 Hu2].
  specialize (Hkw _ Hu1). congruence.
Qed.

End ParserInput.

(** ** Invariants of the commands of a run *)

Section Obeying.

Context {W : Type} (h : handler W).

Lemma run_commands_obey {A} (Q : ext -> Prop) (p : prog A) w r w' l :
  commands_obey h Q p -> run h p w = (r, w', l) -> Forall Q l.
Proof.
  revert w l. induction p as [a|e|c k IH]; intros w l Hp; simpl.
  - intros [= <- <- <-]. constructor.
  - intros [= <- <- <-]. constructor.
  - destruct Hp as [Hc Hk]. destruct (h c w) as [[x|e] w1] eqn:Hh.
    + destruct (run h (k x) w1) as [[r1 w2] l1] eqn:Hrun.
      intros [= <- <- <-]. constructor; [done|].
      eapply IH; [|done]. apply Hk. by exists w, w1.
    + intros [= <- <- <-]. by repeat constructor.
Qed.

Lemma commands_obey_bind {A B} Q (m : prog A) (f : A -> prog B) :
  commands_obey h Q m -> (forall a, commands_obey h Q (f a)) ->
  commands_obey h Q (bind m f).
Proof.
  intros Hm Hf. induction m as [a|e|c k IH]; simpl in *; [done|done|].
  destruct Hm as [Hc Hk]. split; [done|]. intros x Hx. apply IH. by apply Hk.
Qed.

Lemma commands_obey_call_map {A B} Q c (g : ret_type c -> A) (f : A -> prog B) :
  Q c -> (forall x, answers h c x -> commands_obey h Q (f (g x))) ->
  commands_obey h Q (bind (Call c (fun x => Ret (g x))) f).
Proof. intros Hc Hf. simpl. by split. Qed.

Lemma commands_obey_call_bind {B} Q c (f : ret_type c -> prog B) :
  Q c -> (forall x, answers h c x -> commands_obey h Q (f x)) ->
  commands_obey h Q (bind (call c) f).
Proof. intros Hc Hf. simpl. by split. Qed.

Lemma commands_obey_call Q c : Q c -> commands_obey h Q (call c).
Proof. intros Hc. by split. Qed.

Lemma commands_obey_for_each {A} Q (xs : list A) body :
  (forall x, x ∈ xs -> commands_obey h Q (body x)) ->
  commands_obey h Q (for_each xs body).
Proof.
  induction xs as [|x xs IH]; intros Hb; simpl; [done|].
  apply commands_obey_bind; [apply Hb; left|].
  intros _. apply IH. intros y Hy. apply Hb. by right.
Qed.

Lemma run_call_inv c w r w' l :
  run h (call c) w = (r, w', l) -> h c w = (r, w') /\ l = [c].
Proof.
  unfold call. simpl. destruct (h c w) as [[x|e] w1]; by intros [= <- <- <-].
Qed.

End Obeying.

Lemma returns_only_bind {A B} (Q : B -> Prop) (m : prog A) (f : A -> prog B) :
  (forall a, returns_only Q (f a)) -> returns_only Q (bind m f).
Proof.
  intros Hf. induction m as [a|e|c k IH]; simpl; [done|done|].
  intros x. apply IH.
Qed.

Lemma run_returns_only {W A} (h : handler W) (Q : A -> Prop) (p : prog A)
    w a w' l :
  returns_only Q p -> run h p w = (Ok a, w', l) -> Q a.
Proof.
  revert w l. induction p as [a'|e|c k IH]; intros w l Hp; simpl.
  - by intros [= <- <- <-].
  - done.
  - destruct (h c w) as [[x|e] w1]; [|done].
    destruct (run h (k x) w1) as [[r1 w2] l1] eqn:Hrun.
    intros [= -> <- <-]. by eapply IH.
Qed.

Lemma zip_seq_lookup {A} (xs : list A) n i x :
  (i, x) ∈ zip (seq n (length xs)) xs -> n <= i /\ xs !! (i - n) = Some x.
Proof.
  revert n. induction xs as [|y ys IH]; intros n Hin; simpl in *.
  - by apply elem_of_nil in Hin.
  - apply elem_of_cons in Hin as [[= -> ->]|Hin].
    + split; [lia|]. by rewrite Nat.sub_diag.
    + apply IH in Hin as [Hle Hl]. split; [lia|].
      replace (i - n) with (S (i - S n)) by lia. done.
Qed.

Lemma enumerate_lookup {A} (xs : list A) i x :
  (i, x) ∈ enumerate xs -> xs !! i = Some x.
Proof.
  unfold enumerate. intros Hin. apply zip_seq_lookup in Hin as [_ Hl].
  by rewrite Nat.sub_0_r in Hl.
Qed.

(** One step through the structure of a program towards the commands
    it issues. *)
Ltac obey_step :=
  match goal with
  | |- commands_obey _ _ (Ret _) => exact I
  | |- commands_obey _ _ (Raise _) => exact I
  | |- commands_obey _ _ (call _) => apply commands_obey_call
  | |- commands_obey _ _ (bind (call _) _) =>
      apply commands_obey_call_bind; [|intros ? ?]
  | |- commands_obey _ _ (bind (Call _ _) _) =>
      apply commands_obey_call_map; [|intros ? ?]
  | |- commands_obey _ _ (bind _ _) =>
      apply commands_obey_bind; [|intros ?]
  | |- commands_obey _ _ (for_each _ _) =>
      apply commands_obey_for_each; intros ? ?
  | |- commands_obey _ _ (let '(_, _) := ?x in _) => destruct x
  | |- commands_obey _ _ (match ?x with _ => _ end) => destruct x eqn:?
  end.

Section Symbols.

Context (L : library) {W : Type} (h : handler W).

(** A name that the SDFG reports as an array that is not a scalar is
    never added to the SDFG as a symbol. *)
Theorem arrays_are_not_symbols function compilation_args strict
    w r w' l name :
  (forall g w0 x w1, h (SDFG_arrays_get g name) w0 = (Ok x, w1) ->
     exists d, x = Some d /\ isinstance_Scalar d = false) ->
  run h (parse_from_function L function compilation_args strict) w = (r, w', l) ->
  forall g dtype override, SDFG_add_symbol g name dtype override ∉ l.
Proof.
  intros Harr Hrun g dtype override Hin.
  assert (commands_obey h (fun c => forall g t b, c ≠ SDFG_add_symbol g name t b)
            (parse_from_function L function compilation_args strict)) as Hobey.
  { unfold parse_from_function. destruct function as [self|o]; [|exact I].
    destruct (generate_pdp_shape L self compilation_args)
      as [[e ->]|(argtypes & global_vars & ->)]; [exact I|].
    obey_step; [done|]. cbv beta iota. unfold populate, finish.
    repeat (obey_step; try done).
    all: intros g0 t b [= _ -> _ _];
      match goal with
      | Ha : answers h (SDFG_arrays_get _ _) _ |- _ =>
          destruct Ha as (w0 & w1 & Hh);
          destruct (Harr _ _ _ _ Hh) as (d' & Hd & Hs)
      end; congruence. }
  eapply run_commands_obey in Hobey; [|done].
  rewrite Forall_forall in Hobey. by eapply Hobey.
Qed.

End Symbols.

Section Driver.

Context (L : library) {W : Type} (h : handler W).

(** The labels the driver assigns follow the topological order: a
    state is only ever labelled ["s" + str(i)] for a position [i] it has
    in the sorted list of states. *)
Theorem labels_follow_topological_order function compilation_args strict
    w r w' l stateList :
  (forall g start w0 x w1,
     h (SDFG_topological_sort g start) w0 = (Ok x, w1) -> x = stateList) ->
  run h (parse_from_function L function compilation_args strict) w = (r, w', l) ->
  forall state label,
    SDFGState_set_label state label ∈ l ->
    exists i : nat, stateList !! i = Some state /\ label = "s" +:+ pretty i.
Proof.
  intros Hsort Hrun state label Hin.
  assert (commands_obey h
            (fun c => forall state label, c = SDFGState_set_label state label ->
               exists i : nat, stateList !! i = Some state /\
                               label = "s" +:+ pretty i)
            (parse_from_function L function compilation_args strict)) as Hobey.
  { unfold parse_from_function. destruct function as [self|o]; [|exact I].
    destruct (generate_pdp_shape L self compilation_args)
      as [[e ->]|(argtypes & global_vars & ->)]; [exact I|].
    obey_step; [done|]. cbv beta iota. unfold populate, finish.
    repeat (obey_step; try done).
    all: intros state' label' [= <- <-];
      match goal with
      | Ha : answers h (SDFG_topological_sort _ _) ?x,
        Hi : (?i, _) ∈ enumerate ?x |- _ =>
          destruct Ha as (w0 & w1 & Hh); apply Hsort in Hh; subst x;
          apply enumerate_lookup in Hi; by exists i
      end. }
  eapply run_commands_obey in Hobey; [|done].
  rewrite Forall_forall in Hobey. by eapply Hobey.
Qed.

(** A state whose label is reported as a non-empty string is never
    relabelled. *)
Theorem labelled_states_keep_their_label function compilation_args strict
    w r w' l state :
  (forall w0 x w1, h (SDFGState_label state) w0 = (Ok x, w1) ->
     exists a rest, x = Some (String a rest)) ->
  run h (parse_from_function L function compilation_args strict) w = (r, w', l) ->
  forall label, SDFGState_set_label state label ∉ l.
Proof.
  intros Hlabel Hrun label Hin.
  assert (commands_obey h (fun c => forall label, c ≠ SDFGState_set_label state label)
            (parse_from_function L function compilation_args strict)) as Hobey.
  { unfold parse_from_function. destruct function as [self|o]; [|exact I].
    destruct (generate_pdp_shape L self compilation_args)
      as [[e ->]|(argtypes & global_vars & ->)]; [exact I|].
    obey_step; [done|]. cbv beta iota. unfold populate, finish.
    repeat (obey_step; try done).
    all: intros label' [= -> _];
      match goal with
      | Ha : answers h (SDFGState_label _) _ |- _ =>
          destruct Ha as (w0 & w1 & Hh);
          destruct (Hlabel _ _ _ Hh) as (a' & rest' & Hx); congruence
      end. }
  eapply run_commands_obey in Hobey; [|done].
  rewrite Forall_forall in Hobey. by eapply Hobey.
Qed.

(** The dataflow graph of a state is built from the primitives that
    state splitting assigned to that state, and with the alias map that
    [generate_pdp] returned. *)
Theorem dataflow_built_from_assigned_primitives self compilation_args strict
    w r w' l state_primitives :
  (forall pdp g w0 x w1,
     h (depanalysis_create_states_simple pdp g) w0 = (Ok x, w1) ->
     x = state_primitives) ->
  run h (parse_from_function L (HProgram self) compilation_args strict) w
    = (r, w', l) ->
  forall g state primitives modules,
    depanalysis_build_dataflow_graph g state primitives modules ∈ l ->
    state_primitives !! state = Some primitives /\
    modules = <["builtins" := ""]> (module_items L (fn_globals (dp_f self))).
Proof.
  intros Hsplit Hrun g state primitives modules Hin.
  assert (commands_obey h
            (fun c => forall g state primitives modules,
               c = depanalysis_build_dataflow_graph g state primitives modules ->
               state_primitives !! state = Some primitives /\
               modules = <["builtins" := ""]>
                           (module_items L (fn_globals (dp_f self))))
            (parse_from_function L (HProgram self) compilation_args strict))
    as Hobey.
  { unfold parse_from_function.
    destruct (generate_pdp_shape L self compilation_args)
      as [[e ->]|(argtypes & global_vars & ->)]; [exact I|].
    obey_step; [done|]. cbv beta iota. unfold populate, finish.
    repeat (obey_step; try done).
    all: intros g' state' primitives' modules' [= <- <- <- <-];
      match goal with
      | Ha : answers h (depanalysis_create_states_simple _ _) ?x |- _ =>
          destruct Ha as (w0 & w1 & Hh); apply Hsplit in Hh; subst x; by split
      end. }
  eapply run_commands_obey in Hobey; [|done].
  rewrite Forall_forall in Hobey. by eapply Hobey.
Qed.

Lemma run_call_map_inv {A} c (g : ret_type c -> A) w r w' l :
  run h (Call c (fun x => Ret (g x))) w = (r, w', l) ->
  l = [c] /\
  ((exists x, h c w = (Ok x, w') /\ r = Ok (g x)) \/
   (exists e, h c w = (Err e, w') /\ r = Err e)).
Proof.
  simpl. destruct (h c w) as [[x|e] w1]; intros [= <- <- <-];
    (split; [done|]); [left|right]; eauto.
Qed.

Lemma before_sdfg_parse f argtypes global_vars modules :
  before_sdfg (astparser_parse_dace_program f argtypes global_vars modules).
Proof. by split. Qed.

Lemma before_sdfg_name pdp : before_sdfg (PDP_name pdp).
Proof. by split. Qed.

(** Everything after the creation of the SDFG acts on that SDFG and
    returns it. *)
Lemma after_creation pdp modules sdfg strict :
  commands_obey h (within_sdfg sdfg)
    (bind (call (PDP_source pdp)) (fun source =>
       bind (call (SDFG_set_sourcecode sdfg source "python")) (fun _ =>
         bind (populate pdp modules sdfg) (fun _ => finish L sdfg strict)))) /\
  returns_only (eq sdfg)
    (bind (call (PDP_source pdp)) (fun source =>
       bind (call (SDFG_set_sourcecode sdfg source "python")) (fun _ =>
         bind (populate pdp modules sdfg) (fun _ => finish L sdfg strict)))).
Proof.
  split.
  - unfold populate, finish.
    repeat (obey_step;
            try (split; [simpl; intros ? ?; congruence|intros ?; discriminate])).
  - unfold finish. repeat (apply returns_only_bind; intros ?). reflexivity.
Qed.

(** A run of the driver creates at most one SDFG; no command acts on an
    SDFG before it is created, every later command that acts on an SDFG
    acts on the created one, and the SDFG returned is the created one. *)
Theorem construction_uses_one_sdfg function compilation_args strict w r w' l :
  run h (parse_from_function L function compilation_args strict) w = (r, w', l) ->
  exists l1 l2,
    l = l1 ++ l2 /\ Forall before_sdfg l1 /\
    ((l2 = [] /\ exists e, r = Err e) \/
     (exists name w0 w1 e,
        l2 = [SDFG_init name] /\ h (SDFG_init name) w0 = (Err e, w1) /\
        r = Err e) \/
     (exists name w0 w1 sdfg l3,
        l2 = SDFG_init name :: l3 /\
        h (SDFG_init name) w0 = (Ok sdfg, w1) /\
        Forall (within_sdfg sdfg) l3 /\
        forall g, r = Ok g -> g = sdfg)).
Proof.
  unfold parse_from_function. destruct function as [self|o].
  - destruct (generate_pdp_shape L self compilation_args)
      as [[e ->]|(argtypes & global_vars & ->)].
    { simpl. intros [= <- <- <-]. exists [], []. split_and!; [done|constructor|].
      left. eauto. }
    intros Hrun.
    apply run_bind_inv in Hrun
      as [(e & -> & Hgen)|(a & w1 & la & lb & Hgen & Hrun & ->)];
      apply run_call_map_inv in Hgen as [-> Hgen].
    { exists [astparser_parse_dace_program (dp_f self) argtypes global_vars
                (<["builtins":=""]> (module_items L (fn_globals (dp_f self))))], [].
      split_and!; [done| |left; eauto].
      repeat (apply Forall_cons_2; [by split|]); apply Forall_nil_2. }
    destruct Hgen as [(pdp & _ & [= ->])|(e & _ & [=])].
    cbv beta iota in Hrun.
    apply run_bind_inv in Hrun
      as [(e & -> & Hname)|(name & w2 & lc & ld & Hname & Hrun & ->)];
      apply run_call_inv in Hname as [_ ->].
    { eexists [_; _], []. split_and!; [done| |left; eauto].
      repeat (apply Forall_cons_2; [by split|]); apply Forall_nil_2. }
    apply run_bind_inv in Hrun
      as [(e & -> & Hinit)|(sdfg & w3 & le & lf & Hinit & Hrun & ->)];
      apply run_call_inv in Hinit as [Hinit ->].
    { eexists [_; _], [_]. split_and!; [done|repeat (apply Forall_cons_2; [by split|]); apply Forall_nil_2|].
      right. left. by eexists _, _, _, _. }
    destruct (after_creation pdp
                (<["builtins":=""]> (module_items L (fn_globals (dp_f self))))
                sdfg strict) as [Hobey Hret].
    eexists [_; _], (_ :: lf). split_and!; [done|repeat (apply Forall_cons_2; [by split|]); apply Forall_nil_2|].
    right. right. eexists _, _, _, sdfg, lf. split_and!; [done|done| |].
    + by eapply run_commands_obey.
    + intros g ->. symmetry. by eapply run_returns_only.
  - simpl. intros [= <- <- <-]. exists [], []. split_and!; [done|constructor|].
    left. eauto.
Qed.

End Driver.

(** ** Files without programs *)

(** For a file whose module binds no [DaceProgram] object,
    [parse_from_file] reads the file, compiles it under the file's name
    and returns the empty list. *)
Theorem parse_from_file_without_programs (L : library) {W} (h : handler W)
    w filename compilation_args code w1 module w2 :
  h (open_read filename) w = (Ok code, w1) ->
  h (compile_exec code filename) w1 = (Ok module, w2) ->
  (forall name p, (name, HProgram p) ∉ module) ->
  run h (parse_from_file L filename compilation_args) w =
    (Ok [], w2, [open_read filename; compile_exec code filename]).
Proof.
  intros Hopen Hcompile Hnone.
  rewrite (parse_from_file_run L h w filename compilation_args code w1 module w2)
    by done.
  destruct (omap _ module) as [|p programs] eqn:Hprograms; [done|].
  assert (p ∈ p :: programs) as Hin by left.
  rewrite <- Hprograms in Hin.
  apply list_elem_of_omap in Hin as ([name v] & Hin & Hv). simpl in Hv.
  destruct v as [p'|o]; [|done]. by destruct (Hnone name p').
Qed.

(** ** The keyword arguments of a call *)

Section CallArguments.

Context (symlist_shape : Data -> list string).
Context (symbol_get : string -> result Z).

Lemma dict_comprehension_diag {V} (f : string -> result V) syms acc m :
  dict_comprehension f ((fun s => (s, s)) <$> syms) acc = Ok m ->
  (forall s, s ∈ syms -> exists v, f s = Ok v /\ m !! s = Some v) /\
  (forall s, s ∉ syms -> m !! s = acc !! s).
Proof.
  revert acc. induction syms as [|s rest IH]; intros acc; simpl.
  - intros [= <-]. split; [|done]. intros s Hs. by apply elem_of_nil in Hs.
  - destruct (f s) as [v|e] eqn:Hf; simpl; [|done].
    intros Hrest. apply IH in Hrest as [Hin Hout]. split.
    + intros s' Hs'. destruct (decide (s' ∈ rest)) as [Hr|Hr]; [by apply Hin|].
      apply elem_of_cons in Hs' as [->|Hs']; [|done].
      exists v. split; [done|]. rewrite Hout by done. apply lookup_insert_eq.
    + intros s' Hs'. apply not_elem_of_cons in Hs' as [Hne Hs'].
      rewrite Hout by done. by rewrite lookup_insert_ne.
Qed.

Lemma dict_comprehension_diag_total {V} (f : string -> result V) syms acc :
  (forall s, s ∈ syms -> exists v, f s = Ok v) ->
  exists m, dict_comprehension f ((fun s => (s, s)) <$> syms) acc = Ok m.
Proof.
  revert acc. induction syms as [|s rest IH]; intros acc Hall; simpl; [eauto|].
  destruct (Hall s) as [v ->]; [left|]. simpl. apply IH.
  intros s' Hs'. apply Hall. by right.
Qed.

(** The dictionary [__call__] passes to the binary binds every symbol
    in the shape of an argument that carries a descriptor to the value
    of that symbol, and every other parameter name to the argument at
    its position; a symbol shadows a parameter of the same name. *)
Theorem call_kwargs_bindings self args kwargs :
  call_kwargs symlist_shape symbol_get self args = Ok kwargs ->
  NoDup (dp_argnames self) ->
  (forall arg sym, arg ∈ args -> sym ∈ shape_symbols symlist_shape arg ->
     exists value, symbol_get sym = Ok value /\
                   kwargs !! sym = Some (ArgSymbol value)) /\
  (forall i name arg,
     dp_argnames self !! i = Some name -> args !! i = Some arg ->
     (forall arg', arg' ∈ args -> name ∉ shape_symbols symlist_shape arg') ->
     kwargs !! name = Some (ArgObject arg)).
Proof.
  unfold call_kwargs. intros Hcall Hnd.
  destruct (dict_comprehension _ _ ∅) as [symbols|e] eqn:Hsyms; [|done].
  simpl in Hcall. injection Hcall as <-.
  apply dict_comprehension_diag in Hsyms as [Hin Hout]. split.
  - intros arg sym Harg Hsym.
    destruct (Hin sym) as (v & Hv & Hl).
    { apply list_elem_of_bind. by exists arg. }
    destruct (symbol_get sym) as [value|e]; [|done]. simpl in Hv.
    injection Hv as <-. exists value. split; [done|].
    by apply lookup_union_Some_l.
  - intros i name arg Hname Harg Hfree.
    rewrite lookup_union_r.
    + unfold dict_of_items. apply (foldl_put_member id).
      * by apply zip_fst_NoDup.
      * eapply zip_lookup; [done|]. by rewrite list_lookup_fmap, Harg.
    + rewrite Hout, lookup_empty; [done|].
      intros Hs. apply list_elem_of_bind in Hs as (arg' & Hs & Harg').
      by apply (Hfree arg').
Qed.

End CallArguments.

(** ** Symbols and programs without parameters *)

Section Edges.

Context (L : library) {W : Type} (h : handler W).

(** Every symbol the driver adds to the SDFG is a name of the argument
    types of the parsed program, takes the element type of its
    descriptor there, and overrides an earlier type. *)
Theorem symbols_take_argument_types function compilation_args strict
    w r w' l argtypes :
  (forall pdp w0 x w1, h (PDP_argtypes pdp) w0 = (Ok x, w1) -> x = argtypes) ->
  run h (parse_from_function L function compilation_args strict) w = (r, w', l) ->
  forall g name dtype override,
    SDFG_add_symbol g name dtype override ∈ l ->
    override = true /\
    exists d, (name, d) ∈ argtypes /\ dtype = Data_dtype d.
Proof.
  intros Hargs Hrun g name dtype override Hin.
  assert (commands_obey h
            (fun c => forall g name dtype override,
               c = SDFG_add_symbol g name dtype override ->
               override = true /\
               exists d, (name, d) ∈ argtypes /\ dtype = Data_dtype d)
            (parse_from_function L function compilation_args strict)) as Hobey.
  { unfold parse_from_function. destruct function as [self|o]; [|exact I].
    destruct (generate_pdp_shape L self compilation_args)
      as [[e ->]|(at' & global_vars & ->)]; [exact I|].
    obey_step; [done|]. cbv beta iota. unfold populate, finish.
    repeat (obey_step; try done).
    all: intros g' name' dtype' override' [= <- <- <- <-];
      match goal with
      | Ha : answers h (PDP_argtypes _) ?x, Hi : (_, ?d) ∈ ?x |- _ =>
          destruct Ha as (w0 & w1 & Hh); apply Hargs in Hh; subst x;
          split; [done|]; by exists d
      end. }
  eapply run_commands_obey in Hobey; [|done].
  rewrite Forall_forall in Hobey. by eapply Hobey.
Qed.

(** A program without parameters cannot be parsed: whatever its
    annotations, decorator arguments and compilation arguments,
    [generate_pdp] raises, and [parse_from_function] fails before any
    command is issued. *)
Theorem parameterless_programs_rejected self compilation_args strict w :
  dp_argnames self = [] ->
  exists e,
    generate_pdp L self compilation_args = Raise e /\
    run h (parse_from_function L (HProgram self) compilation_args strict) w
      = (Err e, w, []).
Proof.
  intros Hnames.
  assert (exists e, generate_pdp L self compilation_args = Raise e) as [e He].
  { unfold generate_pdp. rewrite Hnames.
    destruct (get_type_annotations_cases L (dp_f self) [] (dp_args self))
      as [[_ [e ->]]|[Hok _]]; [simpl; eauto|].
    assert (dp_args self = []) as Hargs.
    { destruct (dp_args self) as [|a rest]; [done|]. destruct Hok.
      right. right. left. unfold has_decorator_args. simpl. split; lia. }
    assert (type_annotations_of (dp_f self) = ∅) as Hann.
    { apply map_size_empty_iff.
      destruct (decide (size (type_annotations_of (dp_f self)) = 0)); [done|].
      destruct Hok. do 3 right. unfold has_decorator_args, has_inline_annotations.
      rewrite Hargs. simpl. split_and!; lia. }
    rewrite (get_type_annotations_neither L _ _ _ Hargs Hann). simpl.
    rewrite bool_decide_eq_true_2 by done.
    case_bool_decide; [eauto|].
    rewrite bool_decide_eq_true_2 by done. eauto. }
  exists e. split; [done|].
  unfold parse_from_function. by rewrite He.
Qed.

End Edges.

(** * Further examples *)

Import Cases.




(** With annotations on both parameters, one compilation argument too
    few or too many makes no difference. *)
Lemma compilation_args_ignored_witness :
  (has_decorator_args (dp_args annotated) \/
   has_inline_annotations (dp_f annotated)) /\
  generate_pdp (lib true) annotated [] = generate_pdp (lib true) annotated [array43].
Proof.
  assert (H : has_decorator_args (dp_args annotated) \/
              has_inline_annotations (dp_f annotated)).
  { right. unfold has_inline_annotations. vm_compute. lia. }
  split; [exact H|].
  exact (compilation_args_ignored (lib true) annotated [] [array43] H).
Defined.

Lemma decorated_run_eq :
  run (collaborators []) (generate_pdp (lib true) decorated []) tt
    = (decorated_run.1.1, decorated_run.1.2, decorated_run.2).
Proof. vm_compute. reflexivity. Qed.

Lemma decorated_call_issued : decorated_call ∈ decorated_run.2.
Proof. vm_compute. left. Qed.

(** The run of [generate_pdp] on the decorated program. *)
Lemma generate_pdp_footprint_witness :
  run (collaborators []) (generate_pdp (lib true) decorated []) tt
    = (decorated_run.1.1, decorated_run.1.2, decorated_run.2) /\
  length decorated_run.2 <= 1.
Proof.
  split; [exact decorated_run_eq|].
  destruct (generate_pdp_footprint (lib true) (collaborators []) decorated []
              tt _ _ _ decorated_run_eq)
    as [(-> & _)|(argtypes & modules & -> & _)]; simpl; lia.
Defined.

(** Of the globals [n], [np] and [version] and the keyword arguments
    [T] and [np], only allowed values reach the parser. *)
Lemma parser_receives_allowed_constants_witness :
  run (collaborators []) (generate_pdp (lib true) decorated []) tt
    = (decorated_run.1.1, decorated_run.1.2, decorated_run.2) /\
  decorated_call ∈ decorated_run.2 /\
  forall k v, generated_global_vars (lib true) decorated !! k = Some v ->
    dtypes_isallowed (lib true) v = true.
Proof.
  split; [exact decorated_run_eq|]. split; [exact decorated_call_issued|].
  exact (parser_receives_allowed_constants (lib true) (collaborators [])
           decorated [] tt _ _ _ _ _ _ _ decorated_run_eq decorated_call_issued).
Defined.

Lemma decorated_globals k v :
  fn_globals (dp_f decorated) !! k = Some v ->
  v = symbol_N \/ dtypes_isallowed (lib true) v = false.
Proof.
  simpl. intros Hk.
  apply lookup_insert_Some in Hk as [[_ <-]|[_ Hk]]; [by left|].
  apply lookup_insert_Some in Hk as [[_ <-]|[_ Hk]]; [by right|].
  apply lookup_singleton_Some in Hk as [_ <-]. by right.
Qed.

(** The keyword argument [T] and the global [n] reach the parser. *)
Lemma keyword_arguments_shadow_globals_witness :
  run (collaborators []) (generate_pdp (lib true) decorated []) tt
    = (decorated_run.1.1, decorated_run.1.2, decorated_run.2) /\
  decorated_call ∈ decorated_run.2 /\
  generated_global_vars (lib true) decorated !! "T" = Some float64 /\
  generated_global_vars (lib true) decorated !! "n" = Some symbol_N.
Proof.
  split; [exact decorated_run_eq|]. split; [exact decorated_call_issued|].
  destruct (keyword_arguments_shadow_globals (lib true) (collaborators [])
              decorated [] tt _ _ _ _ _ _ _ decorated_run_eq decorated_call_issued)
    as [Hkw Hglobal].
  split.
  - apply Hkw; vm_compute; reflexivity.
  - apply Hglobal.
    + vm_compute. reflexivity.
    + vm_compute. reflexivity.
    + intros u Hu. vm_compute in Hu. discriminate Hu.
    + intros k' v' Hk' Hallowed Hname.
      destruct (decorated_globals k' v' Hk') as [->|Hno]; [|congruence].
      vm_compute in Hname. discriminate Hname.
Defined.

(** The symbol bound to [n] in the globals reaches the parser as [N]. *)
Lemma symbols_passed_under_own_name_witness :
  run (collaborators []) (generate_pdp (lib true) decorated []) tt
    = (decorated_run.1.1, decorated_run.1.2, decorated_run.2) /\
  decorated_call ∈ decorated_run.2 /\
  generated_global_vars (lib true) decorated !! "N" = Some symbol_N.
Proof.
  split; [exact decorated_run_eq|]. split; [exact decorated_call_issued|].
  apply (symbols_passed_under_own_name (lib true) (collaborators [])
           decorated [] tt _ _ _ _ _ _ _ decorated_run_eq decorated_call_issued
           "n" symbol_N "N").
  - vm_compute. reflexivity.
  - vm_compute. reflexivity.
  - reflexivity.
  - intros u Hu. vm_compute in Hu. discriminate Hu.
  - intros k' v' Hk' Hallowed Hname.
    destruct (decorated_globals k' v' Hk') as [->|Hno]; [done|congruence].
Defined.

Lemma driver_run_eq :
  run (collaborators [])
      (parse_from_function (lib true) (HProgram bare) args2 None) tt
    = (driver_run.1.1, driver_run.1.2, driver_run.2).
Proof. vm_compute. reflexivity. Qed.

(** The SDFG reports [A] as an array: [A] is not added as a symbol. *)
Lemma arrays_are_not_symbols_witness :
  (forall g w0 x w1,
     collaborators [] (SDFG_arrays_get g "A") w0 = (Ok x, w1) ->
     exists d, x = Some d /\ isinstance_Scalar d = false) /\
  run (collaborators [])
      (parse_from_function (lib true) (HProgram bare) args2 None) tt
    = (driver_run.1.1, driver_run.1.2, driver_run.2) /\
  forall g dtype override, SDFG_add_symbol g "A" dtype override ∉ driver_run.2.
Proof.
  assert (H : forall g w0 x w1,
     collaborators [] (SDFG_arrays_get g "A") w0 = (Ok x, w1) ->
     exists d, x = Some d /\ isinstance_Scalar d = false).
  { intros g w0 x w1 Hh. simpl in Hh. injection Hh as <- _. eauto. }
  split; [exact H|]. split; [exact driver_run_eq|].
  exact (arrays_are_not_symbols (lib true) (collaborators []) (HProgram bare)
           args2 None tt _ _ _ "A" H driver_run_eq).
Defined.

(** The single state 20 is labelled [s0]. *)
Lemma labels_follow_topological_order_witness :
  (forall g start w0 x w1,
     collaborators [] (SDFG_topological_sort g start) w0 = (Ok x, w1) ->
     x = [20%N]) /\
  run (collaborators [])
      (parse_from_function (lib true) (HProgram bare) args2 None) tt
    = (driver_run.1.1, driver_run.1.2, driver_run.2) /\
  SDFGState_set_label 20%N "s0" ∈ driver_run.2 /\
  exists i : nat, [20%N] !! i = Some 20%N /\ "s0" = "s" +:+ pretty i.
Proof.
  assert (H : forall g start w0 x w1,
     collaborators [] (SDFG_topological_sort g start) w0 = (Ok x, w1) ->
     x = [20%N]).
  { intros g start w0 x w1 Hh. simpl in Hh. by injection Hh as <- _. }
  assert (Hin : SDFGState_set_label 20%N "s0" ∈ driver_run.2).
  { apply list_elem_of_In. vm_compute. do 19 right. left. reflexivity. }
  split; [exact H|]. split; [exact driver_run_eq|]. split; [exact Hin|].
  exact (labels_follow_topological_order (lib true) (collaborators [])
           (HProgram bare) args2 None tt _ _ _ [20%N] H driver_run_eq
           20%N "s0" Hin).
Defined.

Lemma labelled_run_eq :
  run labelled (parse_from_function (lib true) (HProgram bare) args2 None) tt
    = (labelled_run.1.1, labelled_run.1.2, labelled_run.2).
Proof. vm_compute. reflexivity. Qed.

(** State 20 carries the label [entry] and keeps it. *)
Lemma labelled_states_keep_their_label_witness :
  (forall w0 x w1, labelled (SDFGState_label 20%N) w0 = (Ok x, w1) ->
     exists a rest, x = Some (String a rest)) /\
  run labelled (parse_from_function (lib true) (HProgram bare) args2 None) tt
    = (labelled_run.1.1, labelled_run.1.2, labelled_run.2) /\
  labelled_run.1.1 = Ok 2%N /\
  forall label, SDFGState_set_label 20%N label ∉ labelled_run.2.
Proof.
  assert (H : forall w0 x w1, labelled (SDFGState_label 20%N) w0 = (Ok x, w1) ->
     exists a rest, x = Some (String a rest)).
  { intros w0 x w1 Hh. simpl in Hh. injection Hh as <- _. eauto. }
  split; [exact H|]. split; [exact labelled_run_eq|].
  split; [vm_compute; reflexivity|].
  exact (labelled_states_keep_their_label (lib true) labelled (HProgram bare)
           args2 None tt _ _ _ 20%N H labelled_run_eq).
Defined.

(** State 20 is built from the primitives 10 and 11. *)
Lemma dataflow_built_from_assigned_primitives_witness :
  (forall pdp g w0 x w1,
     collaborators [] (depanalysis_create_states_simple pdp g) w0 = (Ok x, w1) ->
     x = {[20%N := [10%N; 11%N]]}) /\
  run (collaborators [])
      (parse_from_function (lib true) (HProgram bare) args2 None) tt
    = (driver_run.1.1, driver_run.1.2, driver_run.2) /\
  forall g state primitives modules,
    depanalysis_build_dataflow_graph g state primitives modules ∈ driver_run.2 ->
    ({[20%N := [10%N; 11%N]]} : gmap N (list N)) !! state = Some primitives /\
    modules = <["builtins" := ""]>
                (module_items (lib true) (fn_globals (dp_f bare))).
Proof.
  assert (H : forall pdp g w0 x w1,
     collaborators [] (depanalysis_create_states_simple pdp g) w0 = (Ok x, w1) ->
     x = {[20%N := [10%N; 11%N]]}).
  { intros pdp g w0 x w1 Hh. simpl in Hh. by injection Hh as <- _. }
  split; [exact H|]. split; [exact driver_run_eq|].
  exact (dataflow_built_from_assigned_primitives (lib true) (collaborators [])
           bare args2 None tt _ _ _ _ H driver_run_eq).
Defined.

(** The run of the driver creates the SDFG 2 and returns it. *)
Lemma construction_uses_one_sdfg_witness :
  run (collaborators [])
      (parse_from_function (lib true) (HProgram bare) args2 None) tt
    = (driver_run.1.1, driver_run.1.2, driver_run.2) /\
  driver_run.1.1 = Ok 2%N /\
  exists l1 l2, driver_run.2 = l1 ++ l2 /\ Forall before_sdfg l1.
Proof.
  split; [exact driver_run_eq|]. split; [vm_compute; reflexivity|].
  destruct (construction_uses_one_sdfg (lib true) (collaborators [])
              (HProgram bare) args2 None tt _ _ _ driver_run_eq)
    as (l1 & l2 & Hl & Hbefore & _).
  by exists l1, l2.
Defined.

(** A file whose module holds the builtins only. *)
Lemma parse_from_file_without_programs_witness :
  collaborators empty_module (open_read "empty.py") tt = (Ok "import dace", tt) /\
  collaborators empty_module (compile_exec "import dace" "empty.py") tt
    = (Ok empty_module, tt) /\
  (forall name p, (name, HProgram p) ∉ empty_module) /\
  run (collaborators empty_module) (parse_from_file (lib true) "empty.py" args2) tt
    = (Ok [], tt, [open_read "empty.py"; compile_exec "import dace" "empty.py"]).
Proof.
  assert (H : forall name p, (name, HProgram p) ∉ empty_module).
  { intros name p Hin. apply list_elem_of_singleton in Hin. discriminate Hin. }
  split; [reflexivity|]. split; [reflexivity|]. split; [exact H|].
  exact (parse_from_file_without_programs (lib true) (collaborators empty_module)
           tt "empty.py" args2 "import dace" tt empty_module tt
           eq_refl eq_refl H).
Defined.

(** The call [f(A, dace.float64)] with [A] of shape [N] and [N = 8]. *)
Lemma call_kwargs_bindings_witness :
  call_kwargs symlist_shape symbol_get bare [dace_array_N; float64]
    = Ok call_dictionary /\
  NoDup (dp_argnames bare) /\
  call_dictionary !! "N" = Some (ArgSymbol 8) /\
  call_dictionary !! "a" = Some (ArgObject dace_array_N).
Proof.
  assert (H1 : call_kwargs symlist_shape symbol_get bare [dace_array_N; float64]
                 = Ok call_dictionary).
  { vm_compute. reflexivity. }
  assert (H2 : NoDup (dp_argnames bare)).
  { simpl. apply NoDup_cons. split; [|apply NoDup_singleton].
    intros Hin. apply list_elem_of_singleton in Hin. discriminate Hin. }
  split; [exact H1|]. split; [exact H2|].
  destruct (call_kwargs_bindings symlist_shape symbol_get bare
              [dace_array_N; float64] call_dictionary H1 H2) as [Hsym Hpos].
  split.
  - destruct (Hsym dace_array_N "N") as (value & Hvalue & ->).
    + left.
    + vm_compute. left.
    + vm_compute in Hvalue. by injection Hvalue as <-.
  - apply (Hpos 0 "a" dace_array_N eq_refl eq_refl).
    intros arg' Harg' Hs.
    apply elem_of_cons in Harg' as [->|Harg'].
    + vm_compute in Hs. apply list_elem_of_singleton in Hs. discriminate Hs.
    + apply list_elem_of_singleton in Harg' as ->. vm_compute in Hs.
      by apply elem_of_nil in Hs.
Defined.

(** [def f(a: dace.float64, b)]: one of two parameters is annotated. *)
Lemma partially_annotated_count_witness :
  NoDup ["a"; "b"] /\
  (forall p, is_Some (type_annotations_of half_annotated !! p) -> p ∈ ["a"; "b"]) /\
  spec_partially_annotated half_annotated ["a"; "b"].
Proof.
  assert (H1 : NoDup ["a"; "b"]).
  { apply NoDup_cons. split; [|apply NoDup_singleton].
    intros Hin. apply list_elem_of_singleton in Hin. discriminate Hin. }
  assert (H2 : forall p, is_Some (type_annotations_of half_annotated !! p) ->
                 p ∈ ["a"; "b"]).
  { assert (type_annotations_of half_annotated = {["a" := float64]}) as ->
      by (vm_compute; reflexivity).
    intros p [v Hp]. apply lookup_singleton_Some in Hp as [<- _]. left. }
  split; [exact H1|]. split; [exact H2|].
  apply (partially_annotated_count half_annotated ["a"; "b"] H1 H2).
  split.
  - unfold has_inline_annotations. vm_compute. lia.
  - vm_compute. lia.
Defined.

(** The symbol [N] is added with the type of its descriptor. *)
Lemma symbols_take_argument_types_witness :
  (forall pdp w0 x w1,
     collaborators [] (PDP_argtypes pdp) w0 = (Ok x, w1) ->
     x = [("A", Array (Typeclass "float64") [DimSym "N"]);
          ("N", Scalar (Typeclass "int32"))]) /\
  run (collaborators [])
      (parse_from_function (lib true) (HProgram bare) args2 None) tt
    = (driver_run.1.1, driver_run.1.2, driver_run.2) /\
  SDFG_add_symbol 2%N "N" (Typeclass "int32") true ∈ driver_run.2 /\
  exists d, (("N", d) ∈ [("A", Array (Typeclass "float64") [DimSym "N"]);
                         ("N", Scalar (Typeclass "int32"))]) /\
            Typeclass "int32" = Data_dtype d.
Proof.
  assert (H : forall pdp w0 x w1,
     collaborators [] (PDP_argtypes pdp) w0 = (Ok x, w1) ->
     x = [("A", Array (Typeclass "float64") [DimSym "N"]);
          ("N", Scalar (Typeclass "int32"))]).
  { intros pdp w0 x w1 Hh. simpl in Hh. by injection Hh as <- _. }
  assert (Hin : SDFG_add_symbol 2%N "N" (Typeclass "int32") true ∈ driver_run.2).
  { apply list_elem_of_In. vm_compute. do 15 right. left. reflexivity. }
  split; [exact H|]. split; [exact driver_run_eq|]. split; [exact Hin|].
  exact (proj2 (symbols_take_argument_types (lib true) (collaborators [])
                  (HProgram bare) args2 None tt _ _ _ _ H driver_run_eq
                  2%N "N" (Typeclass "int32") true Hin)).
Defined.

(** [def f()] compiled with and without arguments. *)
Lemma parameterless_programs_rejected_witness :
  dp_argnames nullary = [] /\
  (exists e,
     run (collaborators [])
         (parse_from_function (lib true) (HProgram nullary) [] None) tt
       = (Err e, tt, [])) /\
  (exists e,
     run (collaborators [])
         (parse_from_function (lib true) (HProgram nullary) args2 None) tt
       = (Err e, tt, [])).
Proof.
  assert (H : dp_argnames nullary = []) by reflexivity.
  split; [exact H|]. split.
  - destruct (parameterless_programs_rejected (lib true) (collaborators [])
                nullary [] None tt H) as (e & _ & Hrun).
    by exists e.
  - destruct (parameterless_programs_rejected (lib true) (collaborators [])
                nullary args2 None tt H) as (e & _ & Hrun).
    by exists e.
Defined.

(** * Attribute reads that raise *)

Section Raising.

Context (L : library).
Context (read : pyobj -> result returned).

(** The embedding over [plain_read] is the embedding further up. *)
Lemma reads_plain_create obj :
  Reads._create_datadescriptor L plain_read obj =
    rmap Descriptor (_create_datadescriptor L obj).
Proof.
  unfold Reads._create_datadescriptor, _create_datadescriptor, plain_read,
    getattr_descriptor.
  destruct (obj_as_Data obj); [done|].
  destruct (obj_descriptor obj); simpl; [done|].
  destruct (obj_as_ndarray obj) as [[ty shape]|]; [done|].
  destruct (symbolic_issymbolic L obj); [done|].
  by destruct (obj_as_typeclass obj).
Qed.

Lemma reads_create_cases obj :
  Reads._create_datadescriptor L read obj =
    match obj_as_Data obj with
    | Some d => Ok (Descriptor d)
    | None =>
        match read obj with
        | Ok v => Ok v
        | Err e =>
            if is_AttributeError e then Ok (Descriptor (spec_inferred L obj))
            else Err e
        end
    end.
Proof.
  unfold Reads._create_datadescriptor, spec_inferred.
  destruct (obj_as_Data obj); [done|].
  destruct (read obj) as [v|[]]; simpl; try done.
  destruct (obj_as_ndarray obj) as [[ty shape]|]; [done|].
  destruct (symbolic_issymbolic L obj); [done|].
  by destruct (obj_as_typeclass obj).
Qed.

(** C7 (as amended).  [_create_datadescriptor] issues no command and
    gives a result for every value.  It fails exactly when the value is
    not a descriptor and reading its [descriptor] attribute raises an
    exception other than AttributeError, which then leaves the function.
    Otherwise it returns the value itself when it is a descriptor, else
    what the attribute holds, else (the attribute missing) a descriptor
    inferred from the value, which is the Scalar of the runtime type
    when no earlier arm applies. *)
Theorem create_datadescriptor_fails_only_on_read (obj : pyobj) :
  avoids (fun _ => true) (lift (Reads._create_datadescriptor L read obj)) /\
  (forall e,
     Reads._create_datadescriptor L read obj = Err e <->
     obj_as_Data obj = None /\ read obj = Err e /\ is_AttributeError e = false) /\
  (forall v,
     Reads._create_datadescriptor L read obj = Ok v <->
     (exists d, obj_as_Data obj = Some d /\ v = Descriptor d) \/
     (obj_as_Data obj = None /\ read obj = Ok v) \/
     (obj_as_Data obj = None /\
      (exists e, read obj = Err e /\ is_AttributeError e = true) /\
      v = Descriptor (spec_inferred L obj))) /\
  (spec_inferred L obj = Scalar (dtypes_typeclass L (obj_type obj)) \/
   is_Some (obj_as_ndarray obj) \/ symbolic_issymbolic L obj = true \/
   is_Some (obj_as_typeclass obj)).
Proof.
  split; [apply avoids_lift|]. rewrite reads_create_cases. split_and!.
  - intros e. destruct (obj_as_Data obj) as [d|].
    + split; [done|]. by intros [? _].
    + destruct (read obj) as [v|e'].
      * split; [done|]. by intros (_ & ? & _).
      * destruct (is_AttributeError e') eqn:He'.
        -- split; [done|]. intros (_ & [= ->] & ?). congruence.
        -- split; [by intros [= ->]|]. by intros (_ & [= ->] & _).
  - intros v. destruct (obj_as_Data obj) as [d|].
    + split.
      * intros [= <-]. left. eauto.
      * intros [(d' & [= <-] & ->)|[[? _]|[? _]]]; done.
    + destruct (read obj) as [v'|e'].
      * split.
        -- intros [= <-]. right. left. done.
        -- intros [(d' & ? & _)|[[_ [= <-]]|(_ & (e & ? & _) & _)]]; done.
      * destruct (is_AttributeError e') eqn:He'.
        -- split.
           ++ intros [= <-]. right. right. split_and!; eauto.
           ++ intros [(d' & ? & _)|[[_ ?]|(_ & _ & ->)]]; done.
        -- split; [done|].
           intros [(d' & ? & _)|[[_ ?]|(_ & (e & [= <-] & ?) & _)]];
             [done|done|congruence].
  - unfold spec_inferred.
    destruct (obj_as_ndarray obj) as [[ty shape]|]; [right; left; eauto|].
    destruct (symbolic_issymbolic L obj); [right; right; left; done|].
    destruct (obj_as_typeclass obj); [|by left].
    do 3 right. eauto.
Qed.

End Raising.

Lemma dict_comprehension_outcome {V W} (f : V -> result W) items acc :
  (exists m, dict_comprehension f items acc = Ok m /\
             forall kv, kv ∈ items -> exists w, f kv.2 = Ok w) \/
  (exists e kv, kv ∈ items /\ f kv.2 = Err e /\
                dict_comprehension f items acc = Err e).
Proof.
  revert acc. induction items as [|[k v] rest IH]; intros acc; simpl.
  - left. eexists. split; [done|]. intros kv Hkv. by apply elem_of_nil in Hkv.
  - destruct (f v) as [w|e] eqn:Hf; simpl.
    + destruct (IH (<[k:=w]> acc)) as [(m & Hm & Hall)|(e & kv & Hkv & He & Hm)].
      * left. exists m. split; [done|]. intros kv Hkv.
        apply elem_of_cons in Hkv as [->|Hkv]; [eauto|by apply Hall].
      * right. exists e, kv. split_and!; [by right|done|done].
    + right. exists e, (k, v). split_and!; [left|done|done].
Qed.

Lemma zip_elem_snd {A B} (xs : list A) (ys : list B) x y :
  (x, y) ∈ zip xs ys -> y ∈ ys.
Proof.
  revert ys. induction xs as [|x' xs IH]; intros [|y' ys] Hin; simpl in *;
    try by apply elem_of_nil in Hin.
  apply elem_of_cons in Hin as [[= -> ->]|Hin]; [left|right; eauto].
Qed.

Lemma zip_elem_of_snd {A B} (xs : list A) (ys : list B) y :
  length xs = length ys -> y ∈ ys -> exists x, (x, y) ∈ zip xs ys.
Proof.
  revert ys. induction xs as [|x' xs IH]; intros [|y' ys] Hlen Hin; simpl in *;
    try done; try by apply elem_of_nil in Hin.
  apply elem_of_cons in Hin as [->|Hin].
  - exists x'. left.
  - destruct (IH ys) as [x Hx]; [lia|done|]. exists x. by right.
Qed.

Section RaisingAnnotations.

Context (L : library).
Context (read : pyobj -> result returned).

(** The outcome of [_get_type_annotations] when reading a descriptor
    may raise: the four checks in their order, then the resolution of
    the descriptors. *)
Lemma reads_get_outcome f f_argnames decorator_args :
  (annotates_return f /\
   Reads._get_type_annotations L read f f_argnames decorator_args
     = Err (TypeError msg_return_type)) \/
  (~ annotates_return f /\ has_decorator_args decorator_args /\
   has_inline_annotations f /\
   Reads._get_type_annotations L read f f_argnames decorator_args
     = Err (SyntaxError msg_both)) \/
  (~ annotates_return f /\ has_decorator_args decorator_args /\
   ~ has_inline_annotations f /\ length decorator_args ≠ length f_argnames /\
   Reads._get_type_annotations L read f f_argnames decorator_args
     = Err (SyntaxError (msg_decorator_count (length f_argnames)))) \/
  (~ annotates_return f /\ ~ has_decorator_args decorator_args /\
   has_inline_annotations f /\
   size (type_annotations_of f) ≠ length f_argnames /\
   Reads._get_type_annotations L read f f_argnames decorator_args
     = Err (SyntaxError msg_partial)) \/
  (~ error_condition f f_argnames decorator_args /\
   ((exists m,
       Reads._get_type_annotations L read f f_argnames decorator_args = Ok m /\
       forall e, ~ resolution_raises L read f decorator_args e) \/
    (exists e,
       resolution_raises L read f decorator_args e /\
       Reads._get_type_annotations L read f f_argnames decorator_args = Err e))).
Proof.
  unfold Reads._get_type_annotations, error_condition, annotates_return,
    has_decorator_args, has_inline_annotations, resolution_raises.
  case_bool_decide as Hret; [by left|]. right.
  case_bool_decide as Hargs; case_bool_decide as Hann; simpl.
  - left. done.
  - right. case_bool_decide as Hlen; [left; done|]. right. right.
    split; [intuition lia|].
    assert (Hempty : type_annotations_of f = ∅)
      by (apply map_size_empty_iff; lia).
    destruct (dict_comprehension_outcome (Reads._create_datadescriptor L read)
                (zip f_argnames decorator_args) ∅)
      as [(m & -> & Hall)|(e & [k v] & Hkv & He & ->)].
    + left. exists m. split; [done|]. intros e (v & [Hv|[k Hk]] & He).
      * destruct (zip_elem_of_snd f_argnames decorator_args v) as [k Hk];
          [lia|done|].
        destruct (Hall _ Hk) as [w Hw]. simpl in Hw. congruence.
      * rewrite Hempty, lookup_empty in Hk. done.
    + right. exists e. split; [|done]. exists v. split; [|done].
      left. by eapply zip_elem_snd.
  - right. right.
    case_bool_decide as Hlen; [left; done|]. right.
    split; [intuition lia|].
    destruct decorator_args as [|a rest]; [|simpl in Hargs; lia].
    destruct (dict_comprehension_outcome (Reads._create_datadescriptor L read)
                (map_to_list (type_annotations_of f)) ∅)
      as [(m & -> & Hall)|(e & [k v] & Hkv & He & ->)].
    + left. exists m. split; [done|]. intros e (v & [Hv|[k Hk]] & He).
      * by apply elem_of_nil in Hv.
      * apply elem_of_map_to_list in Hk. destruct (Hall _ Hk) as [w Hw].
        simpl in Hw. congruence.
    + right. exists e. split; [|done]. exists v. split; [|done].
      right. exists k. by apply elem_of_map_to_list.
  - do 3 right. split; [intuition lia|].
    destruct decorator_args as [|a rest]; [|simpl in Hargs; lia].
    destruct (dict_comprehension_outcome (Reads._create_datadescriptor L read)
                (map_to_list (type_annotations_of f)) ∅)
      as [(m & -> & Hall)|(e & [k v] & Hkv & He & ->)].
    + left. exists m. split; [done|]. intros e (v & [Hv|[k Hk]] & He).
      * by apply elem_of_nil in Hv.
      * apply elem_of_map_to_list in Hk. destruct (Hall _ Hk) as [w Hw].
        simpl in Hw. congruence.
    + right. exists e. split; [|done]. exists v. split; [|done].
      right. exists k. by apply elem_of_map_to_list.
Qed.

(** [_get_type_annotations] raises TypeError for a return annotation,
    whatever else is wrong; otherwise SyntaxError with the message of
    the first check that fails, in the order both sources, decorator
    count, partial annotation; only when no check fails can another
    exception leave it, and it is then the exception raised while the
    descriptor of a decorator argument or of an annotation is
    resolved. *)
Theorem annotation_errors_in_order f f_argnames decorator_args :
  (annotates_return f /\
   Reads._get_type_annotations L read f f_argnames decorator_args
     = Err (TypeError msg_return_type)) \/
  (~ annotates_return f /\ has_decorator_args decorator_args /\
   has_inline_annotations f /\
   Reads._get_type_annotations L read f f_argnames decorator_args
     = Err (SyntaxError msg_both)) \/
  (~ annotates_return f /\ has_decorator_args decorator_args /\
   ~ has_inline_annotations f /\ length decorator_args ≠ length f_argnames /\
   Reads._get_type_annotations L read f f_argnames decorator_args
     = Err (SyntaxError (msg_decorator_count (length f_argnames)))) \/
  (~ annotates_return f /\ ~ has_decorator_args decorator_args /\
   has_inline_annotations f /\
   size (type_annotations_of f) ≠ length f_argnames /\
   Reads._get_type_annotations L read f f_argnames decorator_args
     = Err (SyntaxError msg_partial)) \/
  (~ error_condition f f_argnames decorator_args /\
   ((exists m,
       Reads._get_type_annotations L read f f_argnames decorator_args = Ok m /\
       forall e, ~ resolution_raises L read f decorator_args e) \/
    (exists e,
       resolution_raises L read f decorator_args e /\
       Reads._get_type_annotations L read f f_argnames decorator_args = Err e))).
Proof. apply reads_get_outcome. Qed.

(** For annotations that name parameters only, apart from [return],
    the guards of the function test the four conditions of the
    specification. *)
Lemma error_condition_claimed f f_argnames decorator_args :
  NoDup f_argnames ->
  (forall p, is_Some (type_annotations_of f !! p) ->
     p ∈ f_argnames \/ p = "return") ->
  error_condition f f_argnames decorator_args <->
  claimed_error_condition f f_argnames decorator_args.
Proof.
  intros Hnd Hkeys. unfold error_condition, claimed_error_condition.
  destruct (decide (annotates_return f)) as [Hret|Hret]; [by split; left|].
  assert (Hsub : forall p, is_Some (type_annotations_of f !! p) -> p ∈ f_argnames).
  { intros p Hp. destruct (Hkeys p Hp) as [?| ->]; [done|]. by destruct Hret. }
  assert (Hcount :
    (has_inline_annotations f /\
     size (type_annotations_of f) ≠ length f_argnames)
    <-> spec_partially_annotated f f_argnames).
  { unfold has_inline_annotations, spec_partially_annotated.
    set (ann := type_annotations_of f) in *.
    assert (Hdom : dom ann ⊆ (list_to_set f_argnames : gset string)).
    { intros p Hp. apply elem_of_list_to_set, Hsub. by apply elem_of_dom. }
    assert (Hlen : size (list_to_set f_argnames : gset string)
                   = length f_argnames) by by apply size_list_to_set.
    pose proof (subseteq_size _ _ Hdom) as Hle. rewrite size_dom in Hle.
    split.
    - intros [Hpos Hne]. split.
      + destruct (map_choose ann) as (p & v & Hp).
        { intros ->. rewrite map_size_empty in Hpos. lia. }
        exists p. split; [apply Hsub|]; eauto.
      + destruct (decide (Forall (fun p => is_Some (ann !! p)) f_argnames))
          as [Hall|Hnall].
        * exfalso. apply Hne.
          assert ((list_to_set f_argnames : gset string) ⊆ dom ann) as Hsup.
          { intros p Hp. apply elem_of_list_to_set in Hp. apply elem_of_dom.
            rewrite Forall_forall in Hall. by apply Hall. }
          pose proof (subseteq_size _ _ Hsup) as Hge. rewrite size_dom in Hge.
          lia.
        * apply not_Forall_Exists in Hnall; [|apply _].
          apply Exists_exists in Hnall as (p & Hp & Hnone).
          exists p. split; [done|]. by apply eq_None_not_Some.
    - intros [(p & Hp & Hsome) (q & Hq & Hnone)]. split.
      + destruct Hsome as [v Hv].
        destruct (decide (size ann = 0)) as [Hz|]; [|lia].
        apply map_size_empty_iff in Hz. rewrite Hz in Hv.
        by rewrite lookup_empty in Hv.
      + intros Heq.
        assert (dom ann ≡ (list_to_set f_argnames : gset string)) as Hd.
        { apply set_subseteq_size_equiv; [done|]. rewrite size_dom. lia. }
        assert (q ∈ dom ann) as Hqd
          by (rewrite Hd; by apply elem_of_list_to_set).
        apply elem_of_dom in Hqd as [v Hv]. congruence. }
  split.
  - intros [?|[?|[?|(Hn & Ha & Hs)]]]; [by left|by right; left|
      by right; right; left|].
    do 3 right. apply Hcount. done.
  - intros [?|[?|[?|Hpart]]]; [by left|by right; left|by right; right; left|].
    apply Hcount in Hpart as [Ha Hs].
    destruct (decide (has_decorator_args decorator_args)) as [Hargs|Hargs].
    + right. left. done.
    + do 3 right. done.
Qed.

(** C5 (as amended).  For a callable whose inline annotations name
    parameters only (apart from [return]), [_get_type_annotations]
    raises exactly when (1) the callable annotates a return type, (2)
    decorator arguments and inline annotations are both present, (3) the
    number of decorator arguments given differs from the number of
    parameters, (4) some but not all parameters carry inline
    annotations, or (5) resolving the descriptor of a decorator argument
    or of an annotation raises; otherwise it returns a mapping. *)
Theorem get_type_annotations_raises_exactly f f_argnames decorator_args :
  NoDup f_argnames ->
  (forall p, is_Some (type_annotations_of f !! p) ->
     p ∈ f_argnames \/ p = "return") ->
  ((exists e,
      Reads._get_type_annotations L read f f_argnames decorator_args = Err e) <->
   claimed_error_condition f f_argnames decorator_args \/
   exists e, resolution_raises L read f decorator_args e) /\
  ((exists m,
      Reads._get_type_annotations L read f f_argnames decorator_args = Ok m) <->
   ~ (claimed_error_condition f f_argnames decorator_args \/
      exists e, resolution_raises L read f decorator_args e)).
Proof.
  intros Hnd Hkeys.
  pose proof (error_condition_claimed f f_argnames decorator_args Hnd Hkeys)
    as Hclaimed.
  assert (Herr : error_condition f f_argnames decorator_args ->
                 exists e, Reads._get_type_annotations L read f f_argnames
                             decorator_args = Err e).
  { intros Hc.
    destruct (reads_get_outcome f f_argnames decorator_args)
      as [[_ ->]|[(_ & _ & _ & ->)|[(_ & _ & _ & _ & ->)|
          [(_ & _ & _ & _ & ->)|[Hn _]]]]]; eauto. done. }
  destruct (reads_get_outcome f f_argnames decorator_args)
    as [[H1 He]|[(_ & H1 & H2 & He)|[(_ & H1 & _ & H2 & He)|
        [(_ & H1 & H2 & H3 & He)|[Hn [(m & Hm & Hnone)|(e & Hr & He)]]]]]].
  - split; split; [intros _; left; by left| eauto |
      intros [m Hm]; congruence | intros Hno; destruct Hno; left; by left].
  - split; split; [intros _; left; right; by left| eauto |
      intros [m Hm]; congruence |
      intros Hno; destruct Hno; left; right; by left].
  - split; split; [intros _; left; right; right; by left| eauto |
      intros [m Hm]; congruence |
      intros Hno; destruct Hno; left; right; right; by left].
  - assert (error_condition f f_argnames decorator_args) as Hc
      by (do 3 right; done).
    apply Hclaimed in Hc.
    split; split; [intros _; by left| eauto |
      intros [m Hm]; congruence | intros Hno; destruct Hno; by left].
  - split; split.
    + intros [e He]. congruence.
    + intros [Hc|[e Hr]]; [apply Hclaimed in Hc; done|by destruct (Hnone e)].
    + intros _ [Hc|[e Hr]]; [apply Hclaimed in Hc; done|by destruct (Hnone e)].
    + eauto.
  - split; split.
    + intros _. right. eauto.
    + eauto.
    + intros [m Hm]. congruence.
    + intros Hno. destruct Hno. right. eauto.
Qed.

End RaisingAnnotations.

(** * Calls of a program *)

Section Calls.

Context (L : library).
Context (symlist_shape : Data -> list string).
Context (symbol_get : string -> result Z).
Context {B R : Type}.
Context (sdfg_compile : N -> option bool -> prog B).
Context (binary_call : B -> gmap string callarg -> prog R).
Context {W : Type} (h : handler W).



End Calls.

(** * Examples with reads that raise *)

Import Lazy.

(** C7, the claim as worded fails: for an object whose [descriptor]
    property raises ValueError, [_create_datadescriptor] returns no
    descriptor; the ValueError leaves it. *)
Lemma descriptor_read_raises_counterexample :
  Reads._create_datadescriptor (lib true) lazy_read lazy_obj
    = Err (Raised "ValueError") /\
  ~ exists v, Reads._create_datadescriptor (lib true) lazy_read lazy_obj = Ok v.
Proof.
  split; [reflexivity|]. intros [v Hv]. discriminate Hv.
Qed.

(** C5, the claim as worded fails: [def f(a: lazy)], with an annotation
    whose [descriptor] property raises ValueError, meets none of the
    four conditions, and [_get_type_annotations] raises. *)
Lemma annotation_resolution_raises_counterexample :
  ~ claimed_error_condition lazy_annotated ["a"] [] /\
  Reads._get_type_annotations (lib true) lazy_read lazy_annotated ["a"] []
    = Err (Raised "ValueError").
Proof.
  split; [|vm_compute; reflexivity].
  assert (Hann : type_annotations_of lazy_annotated = {["a" := lazy_obj]})
    by (vm_compute; reflexivity).
  unfold claimed_error_condition, annotates_return, has_decorator_args,
    spec_partially_annotated.
  rewrite Hann.
  intros [[v Hv]|[[Hargs _]|[[Hargs _]|[_ (p & Hp & Hnone)]]]].
  - apply lookup_singleton_Some in Hv as [Hv _]. discriminate Hv.
  - simpl in Hargs. lia.
  - simpl in Hargs. lia.
  - apply list_elem_of_singleton in Hp as ->.
    rewrite lookup_singleton_eq in Hnone. discriminate Hnone.
Qed.

(** [def f(a: dace.float64, b: dace.float64)]: no condition holds, no
    resolution raises, and a mapping is returned. *)
Lemma get_type_annotations_raises_exactly_witness :
  NoDup ["a"; "b"] /\
  (forall p, is_Some (type_annotations_of (dp_f annotated) !! p) ->
     p ∈ ["a"; "b"] \/ p = "return") /\
  ~ (claimed_error_condition (dp_f annotated) ["a"; "b"] [] \/
     exists e, resolution_raises (lib true) plain_read (dp_f annotated) [] e).
Proof.
  assert (H1 : NoDup ["a"; "b"]).
  { apply NoDup_cons. split; [|apply NoDup_singleton].
    intros Hin. apply list_elem_of_singleton in Hin. discriminate Hin. }
  assert (H2 : forall p, is_Some (type_annotations_of (dp_f annotated) !! p) ->
                 p ∈ ["a"; "b"] \/ p = "return").
  { assert (type_annotations_of (dp_f annotated)
            = {["a" := float64; "b" := float64]}) as ->
      by (vm_compute; reflexivity).
    intros p [v Hp]. left.
    apply lookup_insert_Some in Hp as [[<- _]|[_ Hp]]; [left|].
    apply lookup_singleton_Some in Hp as [<- _]. right. left. }
  split; [exact H1|]. split; [exact H2|].
  apply (proj2 (get_type_annotations_raises_exactly (lib true) plain_read
                  (dp_f annotated) ["a"; "b"] [] H1 H2)).
  eexists. vm_compute. reflexivity.
Defined.


